(** * node-dingtalk-robot: the request-dispatch pipeline of [src/robot.ts]

    A shallow embedding of the [Robot] class: its constructor, the signed
    and retried [request], and the five message builders.

    Conventions of the embedding.
    - A JavaScript number is a [Z]: every number the class handles (epoch
      milliseconds, timeouts, retry counts, HTTP statuses, [errcode]) is an
      integer, printed in decimal by template literals and [JSON.stringify].
    - A JavaScript string is a [string] holding its UTF-8 encoding, so the
      bytes hashed by [Hmac.update] and escaped by [encodeURIComponent] are
      the characters of the [string].
    - [Date.now()], the HTTP adapter, [setTimeout] and [console.warn] are
      the effects; they are threaded through a reader/state monad whose
      state is the trace of effects performed so far. *)

From Stdlib Require Import ZArith List Ascii String.
From stdpp Require Import base strings gmap list numbers pretty.

Local Open Scope Z_scope.

(** ** Bytes and characters *)

Definition char_code (c : ascii) : Z := Z.of_N (N_of_ascii c).
Definition char_of_code (z : Z) : ascii := ascii_of_N (Z.to_N z).

(** The UTF-8 bytes of a string (strings are held UTF-8 encoded). *)
Definition utf8_bytes (s : string) : list Z :=
  map char_code (String.list_ascii_of_string s).

Definition string_of_chars (l : list ascii) : string :=
  String.string_of_list_ascii l.

(** ** SHA-256 (FIPS 180-4) and HMAC (RFC 2104): Node's [crypto.createHmac] *)

Module SHA256.

Definition mask32 : Z := 0xFFFFFFFF.
Definition wrap32 (x : Z) : Z := Z.land x mask32.
Definition add32 (x y : Z) : Z := wrap32 (x + y).
Definition rotr (n x : Z) : Z :=
  Z.lor (Z.shiftr x n) (wrap32 (Z.shiftl x (32 - n))).
Definition shr (n x : Z) : Z := Z.shiftr x n.
Definition not32 (x : Z) : Z := Z.lxor x mask32.

Definition Ch (x y z : Z) : Z := Z.lxor (Z.land x y) (Z.land (not32 x) z).
Definition Maj (x y z : Z) : Z :=
  Z.lxor (Z.lxor (Z.land x y) (Z.land x z)) (Z.land y z).
Definition bsig0 (x : Z) : Z := Z.lxor (Z.lxor (rotr 2 x) (rotr 13 x)) (rotr 22 x).
Definition bsig1 (x : Z) : Z := Z.lxor (Z.lxor (rotr 6 x) (rotr 11 x)) (rotr 25 x).
Definition ssig0 (x : Z) : Z := Z.lxor (Z.lxor (rotr 7 x) (rotr 18 x)) (shr 3 x).
Definition ssig1 (x : Z) : Z := Z.lxor (Z.lxor (rotr 17 x) (rotr 19 x)) (shr 10 x).

(** The round constants are the first 32 bits of the fractional parts
    of the cube roots of the first 64 primes, the initial hash value
    those of the square roots of the first 8. *)
Definition primes : list Z :=
  [2; 3; 5; 7; 11; 13; 17; 19; 23; 29; 31; 37; 41; 43; 47; 53; 59; 61; 67;
   71; 73; 79; 83; 89; 97; 101; 103; 107; 109; 113; 127; 131; 137; 139; 149;
   151; 157; 163; 167; 173; 179; 181; 191; 193; 197; 199; 211; 223; 227;
   229; 233; 239; 241; 251; 257; 263; 269; 271; 277; 281; 283; 293; 307; 311].

(** Integer cube root, one bit at a time from bit [bits - 1] down. *)
Fixpoint cube_root (bits : nat) (x acc : Z) : Z :=
  match bits with
  | O => acc
  | S bits' =>
      let cand := acc + 2 ^ Z.of_nat bits' in
      cube_root bits' x (if cand * cand * cand <=? x then cand else acc)
  end.

Definition K : list Z :=
  Eval vm_compute in map (fun p => wrap32 (cube_root 36 (p * 2 ^ 96) 0)) primes.

Definition H0 : list Z :=
  Eval vm_compute in map (fun p => wrap32 (Z.sqrt (p * 2 ^ 64))) (take 8 primes).

(** The [n] low bytes of [x], most significant first. *)
Fixpoint be_bytes (n : nat) (x : Z) : list Z :=
  match n with
  | O => []
  | S n' => Z.land (Z.shiftr x (8 * Z.of_nat n')) 0xFF :: be_bytes n' x
  end.

Definition pad (msg : list Z) : list Z :=
  let len := Z.of_nat (length msg) in
  msg ++ [0x80] ++ repeat 0 (Z.to_nat ((55 - len) mod 64))
      ++ be_bytes 8 (8 * len).

Fixpoint be_words (bs : list Z) : list Z :=
  match bs with
  | a :: b :: c :: d :: rest =>
      Z.lor (Z.shiftl a 24) (Z.lor (Z.shiftl b 16) (Z.lor (Z.shiftl c 8) d))
      :: be_words rest
  | _ => []
  end.

Fixpoint blocks (fuel : nat) (ws : list Z) : list (list Z) :=
  match fuel, ws with
  | S fuel', _ :: _ => take 16 ws :: blocks fuel' (drop 16 ws)
  | _, _ => []
  end.

(** The message schedule is kept as a window of sixteen words:
    at round [t] it holds W[t] .. W[t+15]. *)
Definition next_w (win : list Z) : Z :=
  add32 (add32 (ssig1 (nth 14 win 0)) (nth 9 win 0))
        (add32 (ssig0 (nth 1 win 0)) (nth 0 win 0)).

Definition round (st : list Z * list Z) (k : Z) : list Z * list Z :=
  let '(regs, win) := st in
  match regs with
  | [a; b; c; d; e; f; g; h] =>
      let t1 := add32 (add32 (add32 (add32 h (bsig1 e)) (Ch e f g)) k)
                      (nth 0 win 0) in
      let t2 := add32 (bsig0 a) (Maj a b c) in
      ([add32 t1 t2; a; b; c; add32 d t1; e; f; g],
       drop 1 win ++ [next_w win])
  | _ => st
  end.

Definition compress (hs block : list Z) : list Z :=
  zip_with add32 hs (fst (fold_left round K (hs, block))).

Definition sha256 (msg : list Z) : list Z :=
  let ws := be_words (pad msg) in
  flat_map (be_bytes 4) (fold_left compress (blocks (length ws) ws) H0).

Definition hmac (key msg : list Z) : list Z :=
  let k0 := if (64 <? length key)%nat then sha256 key else key in
  let k := k0 ++ repeat 0 (64 - length k0)%nat in
  sha256 (map (Z.lxor 0x5c) k ++ sha256 (map (Z.lxor 0x36) k ++ msg)).

End SHA256.

(** [createHmac('sha256', key)], [h.update(s)], [h.digest(...)]: the
    object accumulates the updates and hashes at [digest]. *)
Record Hmac := { hmac_key : list Z; hmac_buf : list Z }.

Definition createHmac_sha256 (key : string) : Hmac :=
  {| hmac_key := utf8_bytes key; hmac_buf := [] |}.
Definition Hmac_update (h : Hmac) (s : string) : Hmac :=
  {| hmac_key := hmac_key h; hmac_buf := hmac_buf h ++ utf8_bytes s |}.
Definition Hmac_digest_raw (h : Hmac) : list Z :=
  SHA256.hmac (hmac_key h) (hmac_buf h).

(** ** Base64 ([digest('base64')]) *)

Definition base64_alphabet : list ascii :=
  String.list_ascii_of_string
    "ABCDEFGHIJKLMNOPQRSTUVWXYZabcdefghijklmnopqrstuvwxyz0123456789+/".

Definition b64_char (i : Z) : ascii :=
  nth (Z.to_nat (Z.land i 63)) base64_alphabet "A"%char.

Fixpoint base64_chars (bs : list Z) : list ascii :=
  match bs with
  | [] => []
  | [a] =>
      [b64_char (Z.shiftr a 2); b64_char (Z.shiftl (Z.land a 3) 4);
       "="%char; "="%char]
  | [a; b] =>
      [b64_char (Z.shiftr a 2);
       b64_char (Z.lor (Z.shiftl (Z.land a 3) 4) (Z.shiftr b 4));
       b64_char (Z.shiftl (Z.land b 15) 2); "="%char]
  | a :: b :: c :: rest =>
      b64_char (Z.shiftr a 2)
      :: b64_char (Z.lor (Z.shiftl (Z.land a 3) 4) (Z.shiftr b 4))
      :: b64_char (Z.lor (Z.shiftl (Z.land b 15) 2) (Z.shiftr c 6))
      :: b64_char c
      :: base64_chars rest
  end.

Definition base64 (bs : list Z) : string := string_of_chars (base64_chars bs).

Definition Hmac_digest_base64 (h : Hmac) : string := base64 (Hmac_digest_raw h).

(** ** [encodeURIComponent] *)

Definition is_digit (c : ascii) : bool :=
  let n := char_code c in (48 <=? n) && (n <=? 57).
Definition is_alpha (c : ascii) : bool :=
  let n := char_code c in
  ((65 <=? n) && (n <=? 90)) || ((97 <=? n) && (n <=? 122)).

(** The characters [encodeURIComponent] leaves alone:
    A-Z a-z 0-9 - _ . ! ~ * ' ( ) *)
Definition uri_unreserved (c : ascii) : bool :=
  is_alpha c || is_digit c
  || bool_decide (c ∈ String.list_ascii_of_string "-_.!~*'()").

Definition hex_digit (i : Z) : ascii :=
  nth (Z.to_nat (Z.land i 15))
      (String.list_ascii_of_string "0123456789ABCDEF") "0"%char.

Definition percent_escape (c : ascii) : list ascii :=
  let n := char_code c in
  ["%"%char; hex_digit (Z.shiftr n 4); hex_digit n].

Definition encodeURIComponent (s : string) : string :=
  string_of_chars
    (flat_map (fun c => if uri_unreserved c then [c] else percent_escape c)
              (String.list_ascii_of_string s)).

Definition hex_of_bytes (bs : list Z) : string :=
  string_of_chars
    (flat_map (fun b => [hex_digit (Z.shiftr b 4); hex_digit b]) bs).

(** ** JavaScript values *)

#[warnings="-register-all"]
Inductive JsVal :=
| JUndefined
| JNull
| JBool (b : bool)
| JNum (n : Z)
| JStr (s : string)
| JArr (elems : list JsVal)
| JObj (fields : list (string * JsVal)).

(** The double-quote character, and a reading aid for the statements
    below: [js "{'a':1}"] is the text with every ['] replaced by it. *)
Definition dquote : ascii := char_of_code 34.

Definition js (s : string) : string :=
  string_of_chars
    (map (fun c => if Ascii.eqb c "'" then dquote else c)
         (String.list_ascii_of_string s)).

Definition lower_hex_digit (i : Z) : ascii :=
  nth (Z.to_nat (Z.land i 15))
      (String.list_ascii_of_string "0123456789abcdef") "0"%char.

(** [JSON.stringify] of a string: QuoteJSONString. *)
Definition json_escape_char (c : ascii) : list ascii :=
  let n := char_code c in
  if n =? 34 then ["\"%char; dquote]
  else if n =? 92 then ["\"%char; "\"%char]
  else if n =? 8 then ["\"%char; "b"%char]
  else if n =? 9 then ["\"%char; "t"%char]
  else if n =? 10 then ["\"%char; "n"%char]
  else if n =? 12 then ["\"%char; "f"%char]
  else if n =? 13 then ["\"%char; "r"%char]
  else if n <? 32 then
    ["\"%char; "u"%char; "0"%char; "0"%char;
     lower_hex_digit (Z.shiftr n 4); lower_hex_digit n]
  else [c].

Definition json_quote (s : string) : string :=
  string_of_chars
    ([dquote] ++ flat_map json_escape_char (String.list_ascii_of_string s)
              ++ [dquote]).

Fixpoint join (sep : string) (l : list string) : string :=
  match l with
  | [] => ""
  | [x] => x
  | x :: rest => x +:+ sep +:+ join sep rest
  end.

(** [JSON.stringify(v)]: [None] is JavaScript's [undefined].  A property
    whose value is [undefined] is left out of an object; in an array it
    is written [null]. *)
Fixpoint JSON_stringify (v : JsVal) : option string :=
  match v with
  | JUndefined => None
  | JNull => Some "null"%string
  | JBool b => Some (if b then "true" else "false")%string
  | JNum n => Some (pretty n)
  | JStr s => Some (json_quote s)
  | JArr elems =>
      Some ("[" +:+ join ","
              (map (fun x => default "null"%string (JSON_stringify x)) elems)
            +:+ "]")
  | JObj fields =>
      Some ("{" +:+ join ","
              (omap (fun kv => (fun s => json_quote (fst kv) +:+ ":" +:+ s)
                                 <$> JSON_stringify (snd kv)) fields)
            +:+ "}")
  end.

(** The keys [JSON.stringify] writes for an object, in order. *)
Definition serialized_keys (v : JsVal) : list string :=
  match v with
  | JObj fields =>
      omap (fun kv => match snd kv with JUndefined => None | _ => Some (fst kv) end)
           fields
  | _ => []
  end.

(** Whether a serialized value has an object with key [k] anywhere. *)
Fixpoint mentions_key (k : string) (v : JsVal) {struct v} : bool :=
  match v with
  | JArr elems => existsb (fun x => mentions_key k x) elems
  | JObj fields =>
      existsb (fun kv => match snd kv with
                         | JUndefined => false
                         | _ => String.eqb (fst kv) k || mentions_key k (snd kv)
                         end) fields
  | _ => false
  end.

(** Property read [v.k] on an object ([undefined] when absent). *)
Fixpoint js_get (k : string) (fields : list (string * JsVal)) : JsVal :=
  match fields with
  | [] => JUndefined
  | (k', x) :: rest => if String.eqb k' k then x else js_get k rest
  end.

(** ToString, as a template literal applies it. *)
Fixpoint js_to_string (v : JsVal) : string :=
  match v with
  | JUndefined => "undefined"
  | JNull => "null"
  | JBool b => if b then "true" else "false"
  | JNum n => pretty n
  | JStr s => s
  | JArr elems =>
      join "," (map (fun x => match x with
                              | JUndefined | JNull => ""%string
                              | _ => js_to_string x
                              end) elems)
  | JObj _ => "[object Object]"
  end.

(** Truthiness of an optional string, and [x || d] on optional numbers. *)
Definition truthy (o : option string) : bool :=
  match o with
  | Some s => negb (String.eqb s "")
  | None => false
  end.

Definition num_or (o : option Z) (d : Z) : Z :=
  match o with
  | Some n => if n =? 0 then d else n
  | None => d
  end.

(** ** Effects: the clock, the HTTP adapter, timers and the console *)

(** The part of an axios request config the robot sets.  [cfg_headers]
    are the headers set on the request itself; the defaults axios and its
    adapter add on the wire ([Accept], [User-Agent], [Content-Length])
    are not part of it. *)
Record RequestConfig := {
  cfg_method : string;
  cfg_url : string;
  cfg_timeout : Z;
  cfg_headers : list (string * string);
  cfg_params : option (gmap string JsVal);
  cfg_data : option string
}.

(** What the HTTP adapter hands back for one exchange: a response with
    its status and parsed JSON body, or a failure without a response. *)
Inductive AdapterResult :=
| HttpResponse (status : Z) (body : JsVal)
| NetworkFailure (code : option string) (message : string).

Inductive Event :=
| EvWarn (msg : string)
| EvNow (t : Z)
| EvSend (cfg : RequestConfig)
| EvSleep (ms : Z).

(** The environment answers the [k]-th [Date.now()] and the [k]-th call
    of the adapter (counted from 0). *)
Record Env := {
  clock : nat -> Z;
  adapter : nat -> RequestConfig -> AdapterResult
}.

(** A trace lists the effects performed, the latest first. *)
Fixpoint reads (tr : list Event) : nat :=
  match tr with
  | [] => O
  | EvNow _ :: tr' => S (reads tr')
  | _ :: tr' => reads tr'
  end.

Fixpoint sent (tr : list Event) : nat :=
  match tr with
  | [] => O
  | EvSend _ :: tr' => S (sent tr')
  | _ :: tr' => sent tr'
  end.

Definition M (A : Type) : Type := Env -> list Event -> A * list Event.

Definition ret {A} (a : A) : M A := fun _ tr => (a, tr).
Definition bind {A B} (m : M A) (k : A -> M B) : M B :=
  fun env tr => let '(a, tr') := m env tr in k a env tr'.

Notation "'let*' x := m 'in' k" := (bind m (fun x => k))
  (at level 10, x name, m at level 100, k at level 200).

Definition Date_now : M Z :=
  fun env tr => let t := clock env (reads tr) in (t, EvNow t :: tr).
Definition call_adapter (cfg : RequestConfig) : M AdapterResult :=
  fun env tr => (adapter env (sent tr) cfg, EvSend cfg :: tr).
Definition setTimeout (ms : Z) : M unit := fun _ tr => (tt, EvSleep ms :: tr).
Definition console_warn (msg : string) : M unit := fun _ tr => (tt, EvWarn msg :: tr).

(** ** axios: one exchange, settled by [validateStatus] *)

Record AxiosResponse := { resp_status : Z; resp_data : JsVal }.

Record AxiosError := {
  err_code : option string;
  err_message : string;
  err_config : RequestConfig;
  err_response : option AxiosResponse
}.

(** The code axios gives an error raised for a refused status:
    [[ERR_BAD_REQUEST, ERR_BAD_RESPONSE][Math.floor(status / 100) - 4]]. *)
Definition bad_status_code (status : Z) : option string :=
  let i := status / 100 - 4 in
  if i =? 0 then Some "ERR_BAD_REQUEST"%string
  else if i =? 1 then Some "ERR_BAD_RESPONSE"%string
  else None.

Definition settle (validateStatus : Z -> bool) (cfg : RequestConfig)
    (raw : AdapterResult) : AxiosResponse + AxiosError :=
  match raw with
  | HttpResponse status body =>
      let resp := {| resp_status := status; resp_data := body |} in
      if validateStatus status then inl resp
      else inr {| err_code := bad_status_code status;
                  err_message := "Request failed with status code " +:+ pretty status;
                  err_config := cfg;
                  err_response := Some resp |}
  | NetworkFailure code message =>
      inr {| err_code := code; err_message := message;
             err_config := cfg; err_response := None |}
  end.

Fixpoint includes (needle hay : string) : bool :=
  String.prefix needle hay
  || match hay with
     | EmptyString => false
     | String _ rest => includes needle rest
     end.

Definition lower_char (c : ascii) : ascii :=
  let n := char_code c in
  if (65 <=? n) && (n <=? 90) then char_of_code (n + 32) else c.
Definition toLowerCase (s : string) : string :=
  string_of_chars (map lower_char (String.list_ascii_of_string s)).

Definition code_is (e : AxiosError) (c : string) : bool :=
  match err_code e with
  | Some c' => String.eqb c' c
  | None => false
  end.

(** ** axios-retry *)

(** The predicates of the library.  [isRetryAllowed] is the table of
    the [is-retry-allowed] package, taken as a parameter. *)
Definition isNetworkError (isRetryAllowed : option string -> bool)
    (e : AxiosError) : bool :=
  match err_response e with Some _ => false | None => true end
  && truthy (err_code e)
  && negb (code_is e "ECONNABORTED")
  && isRetryAllowed (err_code e).

Definition isRetryableError (e : AxiosError) : bool :=
  negb (code_is e "ECONNABORTED")
  && match err_response e with
     | None => true
     | Some resp => (500 <=? resp_status resp) && (resp_status resp <=? 599)
     end.

Definition IDEMPOTENT_HTTP_METHODS : list string :=
  ["get"; "head"; "options"; "put"; "delete"]%string.

Definition isIdempotentRequestError (e : AxiosError) : bool :=
  isRetryableError e
  && bool_decide (cfg_method (err_config e) ∈ IDEMPOTENT_HTTP_METHODS).

Definition isNetworkOrIdempotentRequestError
    (isRetryAllowed : option string -> bool) (e : AxiosError) : bool :=
  isNetworkError isRetryAllowed e || isIdempotentRequestError e.

Record IAxiosRetryConfig := {
  ar_retries : Z;
  ar_shouldResetTimeout : bool;
  ar_retryDelay : Z -> AxiosError -> Z;
  ar_retryCondition : AxiosError -> bool
}.

(** The per-request state the library keeps in the request config. *)
Record RetryState := { retryCount : Z; lastRequestTime : option Z }.

Record AxiosInstance := {
  validateStatus : Z -> bool;
  request_interceptor : RequestConfig -> M RequestConfig;
  retry_config : IAxiosRetryConfig
}.

Definition with_timeout (cfg : RequestConfig) (t : Z) : RequestConfig :=
  {| cfg_method := cfg_method cfg; cfg_url := cfg_url cfg; cfg_timeout := t;
     cfg_headers := cfg_headers cfg; cfg_params := cfg_params cfg;
     cfg_data := cfg_data cfg |}.

Definition with_method (cfg : RequestConfig) (m : string) : RequestConfig :=
  {| cfg_method := m; cfg_url := cfg_url cfg; cfg_timeout := cfg_timeout cfg;
     cfg_headers := cfg_headers cfg; cfg_params := cfg_params cfg;
     cfg_data := cfg_data cfg |}.

Definition with_params (cfg : RequestConfig) (p : gmap string JsVal) : RequestConfig :=
  {| cfg_method := cfg_method cfg; cfg_url := cfg_url cfg;
     cfg_timeout := cfg_timeout cfg; cfg_headers := cfg_headers cfg;
     cfg_params := Some p; cfg_data := cfg_data cfg |}.

(** What the retry interceptor does with a timeout it does not reset. *)
Definition shrink_timeout (o : IAxiosRetryConfig) (st : RetryState)
    (delay : Z) (cfg : RequestConfig) : M RequestConfig :=
  match lastRequestTime st with
  | Some last =>
      if negb (ar_shouldResetTimeout o) && negb (cfg_timeout cfg =? 0)
         && negb (last =? 0)
      then let* now := Date_now in
           ret (with_timeout cfg (Z.max (cfg_timeout cfg - (now - last) - delay) 1))
      else ret cfg
  | None => ret cfg
  end.

(** [instance.request(config)] with the retry interceptors installed.
    Request interceptors run last-registered first: the library's (which
    stamps [lastRequestTime]), then the instance's own.  A settled error
    goes to the library's response interceptor, which either waits and
    issues the request again or passes the error on.  [fuel] bounds the
    re-issues; [None] is returned only when it runs out.  The request's
    own headers are carried through as they are; the default headers
    axios merges in before the adapter runs are left out. *)
Fixpoint axios_dispatch (fuel : nat) (inst : AxiosInstance) (st : RetryState)
    (cfg : RequestConfig) : M (option (AxiosResponse + AxiosError)) :=
  let cfg := with_method cfg (toLowerCase (cfg_method cfg)) in
  let* now := Date_now in
  let st := {| retryCount := retryCount st; lastRequestTime := Some now |} in
  let* cfg := request_interceptor inst cfg in
  let* raw := call_adapter cfg in
  match settle (validateStatus inst) cfg raw with
  | inl resp => ret (Some (inl resp))
  | inr err =>
      let o := retry_config inst in
      if (retryCount st <? ar_retries o) && ar_retryCondition o err then
        let st := {| retryCount := retryCount st + 1;
                     lastRequestTime := lastRequestTime st |} in
        let delay := ar_retryDelay o (retryCount st) err in
        let* cfg := shrink_timeout o st delay cfg in
        let* _ := setTimeout delay in
        match fuel with
        | S fuel' => axios_dispatch fuel' inst st cfg
        | O => ret None
        end
      else ret (Some (inr err))
  end.

Definition axios_request (inst : AxiosInstance) (cfg : RequestConfig)
    : M (option (AxiosResponse + AxiosError)) :=
  axios_dispatch (Z.to_nat (ar_retries (retry_config inst))) inst
                 {| retryCount := 0; lastRequestTime := None |} cfg.

(** ** The [Robot] class *)

Record RobotConstructorOptions := {
  opts_url : option string;
  opts_accessToken : option string;
  opts_secret : option string;
  opts_timeout : option Z;
  opts_retries : option Z
}.

(** The private fields [#url], [#secret], [#timeout], [#retries] and
    [#axiosInstance]. *)
Record Robot := {
  url : option string;
  secret : option string;
  timeout : Z;
  retries : Z;
  axiosInstance : AxiosInstance
}.

Definition newline : string := String (char_of_code 10) EmptyString.

(** The [retryCondition] callback handed to [axiosRetry]. *)
Definition retryCondition (isRetryAllowed : option string -> bool)
    (err : AxiosError) : bool :=
  if isNetworkOrIdempotentRequestError isRetryAllowed err then true
  else if code_is err "ECONNABORTED" && includes "timeout" (err_message err) then true
  else if code_is err "ETIMEDOUT" then true
  else match err_response err with
       | Some resp => if 500 <=? resp_status resp then true else false
       | None => false
       end.

(** The request interceptor installed by the constructor. *)
Definition stamp_request (request : RequestConfig) : M RequestConfig :=
  let params := default ∅ (cfg_params request) in
  let* now := Date_now in
  ret (with_params request (<["_"%string := JNum now]> params)).

Definition Robot_constructor (isRetryAllowed : option string -> bool)
    (opts : RobotConstructorOptions) : M Robot :=
  let url0 := opts_url opts in
  let url1 :=
    if truthy (opts_accessToken opts)
    then Some ("https://oapi.dingtalk.com/robot/send?access_token="
               +:+ default ""%string (opts_accessToken opts))
    else url0 in
  let secret0 := opts_secret opts in
  let timeout0 := num_or (opts_timeout opts) 3000 in
  let* _ := (if negb (truthy url1)
             then console_warn "url is empty, all operations will ignore"
             else ret tt) in
  let retries0 := num_or (opts_retries opts) 10 in
  ret {| url := url1;
         secret := secret0;
         timeout := timeout0;
         retries := retries0;
         axiosInstance :=
           {| validateStatus := fun status => (200 <=? status) && (status <? 300);
              request_interceptor := stamp_request;
              retry_config :=
                {| ar_retries := retries0;
                   ar_shouldResetTimeout := true;
                   ar_retryDelay := fun _ _ => 1000;
                   ar_retryCondition := retryCondition isRetryAllowed |} |} |}.

(** How a call of [request] ends: it returns [undefined] at once, or a
    promise that is fulfilled or rejected. *)
Inductive JsError :=
| AxiosErr (e : AxiosError)
| Error (message : string)
| TypeError.

Inductive Outcome :=
| ReturnsUndefined
| Resolves
| Rejects (e : JsError).

Definition succeeds (o : Outcome) : bool :=
  match o with Rejects _ => false | _ => true end.

(** The signature of [request]: HMAC-SHA256 keyed by the secret over
    [`${timestamp}\n${secret}`], in base64, percent-encoded. *)
Definition sign (secret0 : string) (timestamp : Z) : string :=
  let h := createHmac_sha256 secret0 in
  let h := Hmac_update h (pretty timestamp +:+ newline +:+ secret0) in
  encodeURIComponent (Hmac_digest_base64 h).

(** The [then] callback of [request]. *)
Definition check_envelope (resp : AxiosResponse) : Outcome :=
  match resp_data resp with
  | JUndefined | JNull => Rejects TypeError
  | d =>
      let fields := match d with JObj fs => fs | _ => [] end in
      let errcode := js_get "errcode" fields in
      let errmsg := js_get "errmsg" fields in
      match errcode with
      | JNum 0 => Resolves
      | _ =>
          Rejects (Error ("request dingtalk fail, errorcode '"
                          +:+ js_to_string errcode +:+ "', errormsg '"
                          +:+ js_to_string errmsg +:+ "'"))
      end
  end.

Definition request (r : Robot) (data : JsVal) : M (option Outcome) :=
  if negb (truthy (url r)) then ret (Some ReturnsUndefined)
  else
    let* params :=
      (if truthy (secret r) then
         let secret0 := default ""%string (secret r) in
         let* timestamp := Date_now in
         ret ({[ "timestamp"%string := JNum timestamp;
                 "sign"%string := JStr (sign secret0 timestamp) ]}
              : gmap string JsVal)
       else ret ∅) in
    let* settled :=
      axios_request (axiosInstance r)
        {| cfg_method := "POST";
           cfg_url := default ""%string (url r);
           cfg_timeout := timeout r;
           cfg_headers := [("Content-Type", "application/json")]%string;
           cfg_params := Some params;
           cfg_data := JSON_stringify data |} in
    ret (match settled with
         | None => None
         | Some (inl resp) => Some (check_envelope resp)
         | Some (inr err) => Some (Rejects (AxiosErr err))
         end).

(** *** Message builders *)

(** The builders forward what the caller passes.  [text] and [markdown]
    read [content] (or [title] and [text]) from their argument and hand
    on [arg.at] as it is; [link], [actionCard] and [feedCard] hand on the
    whole object.  The caller's objects are therefore JavaScript values,
    and the interfaces of the source are predicates on them: TypeScript's
    types are structural, so an object conforms when it has the declared
    properties with the declared types, and it may have others. *)
Definition js_prop (k : string) (v : JsVal) : JsVal :=
  match v with
  | JObj fields => js_get k fields
  | _ => JUndefined
  end.

Definition is_object (v : JsVal) : bool :=
  match v with JObj _ => true | _ => false end.
Definition is_string (v : JsVal) : bool :=
  match v with JStr _ => true | _ => false end.
Definition is_boolean (v : JsVal) : bool :=
  match v with JBool _ => true | _ => false end.
Definition is_optional (f : JsVal -> bool) (v : JsVal) : bool :=
  match v with JUndefined => true | _ => f v end.
Definition is_array_of (f : JsVal -> bool) (v : JsVal) : bool :=
  match v with JArr elems => forallb f elems | _ => false end.

Definition conforms_IMentions (v : JsVal) : bool :=
  is_object v
  && is_optional (is_array_of is_string) (js_prop "atMobiles" v)
  && is_optional (is_array_of is_string) (js_prop "atUserIds" v)
  && is_optional is_boolean (js_prop "isAtAll" v).

Definition conforms_ILinkReq (v : JsVal) : bool :=
  is_object v
  && is_string (js_prop "text" v)
  && is_string (js_prop "title" v)
  && is_string (js_prop "messageUrl" v)
  && is_optional is_string (js_prop "picUrl" v).

Definition conforms_IActionCardButton (v : JsVal) : bool :=
  is_object v
  && is_string (js_prop "title" v)
  && is_string (js_prop "actionURL" v).

Definition conforms_IActionCardReq (v : JsVal) : bool :=
  is_object v
  && is_string (js_prop "title" v)
  && is_string (js_prop "text" v)
  && ((is_string (js_prop "singleTitle" v) && is_string (js_prop "singleURL" v))
      || (match js_prop "btnOrientation" v with
          | JStr o => String.eqb o "0" || String.eqb o "1"
          | _ => false
          end
          && is_array_of conforms_IActionCardButton (js_prop "btns" v))).

Definition conforms_IFeedCardLink (v : JsVal) : bool :=
  is_object v
  && is_string (js_prop "title" v)
  && is_string (js_prop "messageURL" v)
  && is_string (js_prop "picURL" v).

Definition conforms_IFeedCardReq (v : JsVal) : bool :=
  is_object v
  && is_array_of conforms_IFeedCardLink (js_prop "links" v).

(** What [text] and [markdown] read from a structured argument: the
    strings, and [arg.at] when the property is there. *)
Record ITextReq := { content : string; text_at : option JsVal }.

Record IMarkdownReq := {
  md_title : string;
  md_text : string;
  md_at : option JsVal
}.

(** The object literal each builder hands to [request]. *)
Definition text_payload (arg : string + ITextReq) : JsVal :=
  let '(content0, at0) :=
    match arg with
    | inl s => (s, JUndefined)
    | inr req => (content req, default JUndefined (text_at req))
    end in
  JObj [("msgtype", JStr "text");
        ("text", JObj [("content", JStr content0); ("at", at0)])]%string.

Definition markdown_payload (arg : string * string + IMarkdownReq) : JsVal :=
  let '(title, text, at0) :=
    match arg with
    | inl (arg1, arg2) => (arg1, arg2, JUndefined)
    | inr req => (md_title req, md_text req, default JUndefined (md_at req))
    end in
  JObj [("msgtype", JStr "markdown");
        ("markdown", JObj [("title", JStr title); ("text", JStr text);
                           ("at", at0)])]%string.

Definition link_payload (data : JsVal) : JsVal :=
  JObj [("msgtype", JStr "link"); ("link", data)]%string.

Definition actionCard_payload (data : JsVal) : JsVal :=
  JObj [("msgtype", JStr "actionCard"); ("actionCard", data)]%string.

Definition feedCard_payload (data : JsVal) : JsVal :=
  JObj [("msgtype", JStr "feedCard"); ("feedCard", data)]%string.

Definition text (r : Robot) (arg : string + ITextReq) : M (option Outcome) :=
  request r (text_payload arg).
Definition markdown (r : Robot) (arg : string * string + IMarkdownReq)
    : M (option Outcome) :=
  request r (markdown_payload arg).
Definition link (r : Robot) (data : JsVal) : M (option Outcome) :=
  request r (link_payload data).
Definition actionCard (r : Robot) (data : JsVal) : M (option Outcome) :=
  request r (actionCard_payload data).
Definition feedCard (r : Robot) (data : JsVal) : M (option Outcome) :=
  request r (feedCard_payload data).

(** ** Observations on a run *)

(** The robot a constructor call yields. *)
Definition construct (isRetryAllowed : option string -> bool)
    (opts : RobotConstructorOptions) (env : Env) (tr : list Event) : Robot :=
  fst (Robot_constructor isRetryAllowed opts env tr).

(** The axios instance the constructor sets up for a retry budget. *)
Definition robot_instance (isRetryAllowed : option string -> bool)
    (budget : Z) : AxiosInstance :=
  {| validateStatus := fun status => (200 <=? status) && (status <? 300);
     request_interceptor := stamp_request;
     retry_config :=
       {| ar_retries := budget;
          ar_shouldResetTimeout := true;
          ar_retryDelay := fun _ _ => 1000;
          ar_retryCondition := retryCondition isRetryAllowed |} |}.

(** A query parameter of an outgoing request. *)
Definition param (k : string) (c : RequestConfig) : option JsVal :=
  match cfg_params c with
  | Some p => p !! k
  | None => None
  end.

(** The attempts and the waits of a run, in the order they happened. *)
Inductive Step :=
| Attempt (timeout_ms : Z)
| Wait (ms : Z).

Definition step_of (e : Event) : option Step :=
  match e with
  | EvSend c => Some (Attempt (cfg_timeout c))
  | EvSleep ms => Some (Wait ms)
  | _ => None
  end.

Definition timeline (evs : list Event) : list Step := omap step_of (rev evs).

Fixpoint retry_rounds (n : nat) (t : Z) : list Step :=
  match n with
  | O => []
  | S n' => Wait 1000 :: Attempt t :: retry_rounds n' t
  end.

(** Every request sent carries, as [_], the clock reading taken just
    before it went out. *)
Fixpoint stamped (evs : list Event) : Prop :=
  match evs with
  | [] => True
  | EvSend c :: rest =>
      match rest with
      | EvNow t :: _ => param "_" c = Some (JNum t)
      | _ => False
      end /\ stamped rest
  | _ :: rest => stamped rest
  end.

(** A request that differs from [c0] at most in its method's case and
    in the [_] parameter. *)
Definition derived_from (c0 c : RequestConfig) : Prop :=
  cfg_url c = cfg_url c0 /\ cfg_timeout c = cfg_timeout c0
  /\ cfg_headers c = cfg_headers c0 /\ cfg_data c = cfg_data c0
  /\ forall k, k <> "_"%string -> param k c = param k c0.

(** The parameters [request] builds before the interceptor runs. *)
Definition base_params (r : Robot) (timestamp : Z) : gmap string JsVal :=
  if truthy (secret r)
  then {[ "timestamp"%string := JNum timestamp;
          "sign"%string := JStr (sign (default ""%string (secret r)) timestamp) ]}
  else ∅.

(** Text that needs no further escaping in a query string: unreserved
    characters and well-formed percent escapes. *)
Definition is_hex (c : ascii) : bool :=
  let n := char_code c in
  is_digit c || ((65 <=? n) && (n <=? 70)) || ((97 <=? n) && (n <=? 102)).

Fixpoint url_safe_chars (l : list ascii) : bool :=
  match l with
  | [] => true
  | c :: rest =>
      if Ascii.eqb c "%" then
        match rest with
        | h1 :: h2 :: rest' => is_hex h1 && is_hex h2 && url_safe_chars rest'
        | _ => false
        end
      else uri_unreserved c && url_safe_chars rest
  end.

Definition url_safe (s : string) : bool :=
  url_safe_chars (String.list_ascii_of_string s).

Definition alnum_or_percent (c : ascii) : bool :=
  is_alpha c || is_digit c || Ascii.eqb c "%".

(** The Signer as the specification words it: HMAC-SHA256 with the
    secret as key over the UTF-8 bytes of ["<timestamp>\n<secret>"],
    base64-encoded, then percent-encoded. *)
Definition Signer_sign_spec (secret0 : string) (timestampMs : Z) : string :=
  encodeURIComponent
    (base64 (SHA256.hmac (utf8_bytes secret0)
               (utf8_bytes (pretty timestampMs +:+ newline +:+ secret0)))).

Definition base64_char (c : ascii) : Prop := In c (base64_alphabet ++ ["="%char]).

(** The error axios raises for a response whose status is refused. *)
Definition status_error (c : RequestConfig) (status : Z) (body : JsVal) : AxiosError :=
  {| err_code := bad_status_code status;
     err_message := "Request failed with status code " +:+ pretty status;
     err_config := c;
     err_response := Some {| resp_status := status; resp_data := body |} |}.

(** The request [request] hands to axios. *)
Definition request_config (r : Robot) (data : JsVal) (timestamp : Z) : RequestConfig :=
  {| cfg_method := "POST";
     cfg_url := default ""%string (url r);
     cfg_timeout := timeout r;
     cfg_headers := [("Content-Type", "application/json")]%string;
     cfg_params := Some (base_params r timestamp);
     cfg_data := JSON_stringify data |}.

(** The part of the trace [request] adds before axios runs. *)
Definition secret_read (r : Robot) (T : Z) : list Event :=
  if truthy (secret r) then [EvNow T] else [].

(** The envelope and the errors of the remote service. *)
Definition envelope (errcode : Z) (errmsg : string) : JsVal :=
  JObj [("errcode", JNum errcode); ("errmsg", JStr errmsg)]%string.

Definition remote_rejection (errcode : Z) (errmsg : string) : JsError :=
  Error ("request dingtalk fail, errorcode '" +:+ pretty errcode
         +:+ "', errormsg '" +:+ errmsg +:+ "'").

(** ** Sample configurations and mock transports *)

Definition allow_all : option string -> bool := fun _ => true.

Definition sample_clock : nat -> Z := fun k => 1700000000000 + Z.of_nat k.

(** Fails with status 500 on the first [n] calls, then answers 200 with
    [{errcode: 0}]. *)
Definition flaky_adapter (n : nat) : nat -> RequestConfig -> AdapterResult :=
  fun k _ => if (k <? n)%nat
             then HttpResponse 500 (JStr "Internal Server Error")
             else HttpResponse 200 (envelope 0 "ok").

Definition rejecting_adapter : nat -> RequestConfig -> AdapterResult :=
  fun _ _ => HttpResponse 200 (envelope 1 "token invalid").

Definition bad_request_adapter : nat -> RequestConfig -> AdapterResult :=
  fun _ _ => HttpResponse 400 (JStr "Bad Request").

Definition env_of (a : nat -> RequestConfig -> AdapterResult) : Env :=
  {| clock := sample_clock; adapter := a |}.

Definition opts_token : RobotConstructorOptions :=
  {| opts_url := None; opts_accessToken := Some "abc"%string;
     opts_secret := Some "SEC"%string;
     opts_timeout := Some 500; opts_retries := Some 2 |}.

Definition opts_no_secret : RobotConstructorOptions :=
  {| opts_url := Some "http://localhost/hook"%string; opts_accessToken := None;
     opts_secret := None; opts_timeout := None; opts_retries := Some 2 |}.

Definition opts_empty_secret : RobotConstructorOptions :=
  {| opts_url := Some "http://localhost/hook"%string; opts_accessToken := None;
     opts_secret := Some ""%string; opts_timeout := None; opts_retries := None |}.

Definition opts_empty_token : RobotConstructorOptions :=
  {| opts_url := Some "http://localhost/hook"%string;
     opts_accessToken := Some ""%string;
     opts_secret := None; opts_timeout := None; opts_retries := None |}.

Definition opts_zero_retries : RobotConstructorOptions :=
  {| opts_url := Some "http://localhost/hook"%string; opts_accessToken := None;
     opts_secret := None; opts_timeout := Some 100; opts_retries := Some 0 |}.

Definition opts_unconfigured : RobotConstructorOptions :=
  {| opts_url := None; opts_accessToken := None; opts_secret := Some "SEC"%string;
     opts_timeout := None; opts_retries := None |}.

Definition sample_mentions : JsVal :=
  JObj [("atMobiles", JArr [JStr "13800000000"]); ("isAtAll", JBool false)]%string.

Definition sample_link : JsVal :=
  JObj [("text", JStr "t"); ("title", JStr "T");
        ("messageUrl", JStr "http://localhost/")]%string.

(** An object that conforms to [ILinkReq] and has one property more. *)
Definition link_with_at : JsVal :=
  JObj [("text", JStr "t"); ("title", JStr "T");
        ("messageUrl", JStr "http://localhost/");
        ("at", JObj [("isAtAll", JBool true)])]%string.

Definition sample_actionCard : JsVal :=
  JObj [("title", JStr "T"); ("text", JStr "t"); ("btnOrientation", JStr "0");
        ("btns", JArr [JObj [("title", JStr "ok");
                             ("actionURL", JStr "http://localhost/ok")]])]%string.

Definition sample_feedCard : JsVal :=
  JObj [("links", JArr [JObj [("title", JStr "T");
                              ("messageURL", JStr "http://localhost/");
                              ("picURL", JStr "http://localhost/p.png")]])]%string.

(** The requests sent in a run, the first one first. *)
Definition sends (evs : list Event) : list RequestConfig :=
  omap (fun e => match e with EvSend c => Some c | _ => None end) (rev evs).
(** ** Further observations *)

(** The test [validateStatus] makes, and the error axios raises when the
    adapter fails without a response. *)
Definition accepts_status (status : Z) : bool := (200 <=? status) && (status <? 300).

Definition network_error (c : RequestConfig) (code : option string)
    (message : string) : AxiosError :=
  {| err_code := code; err_message := message;
     err_config := c; err_response := None |}.

(** How [request] ends when the exchange that settles the call answered
    [raw] to the request [c]. *)
Definition final_outcome (c : RequestConfig) (raw : AdapterResult) : Outcome :=
  match settle accepts_status c raw with
  | inl resp => check_envelope resp
  | inr err => Rejects (AxiosErr err)
  end.

(** Whether the robot's retry condition holds for what an exchange of a
    POST request answered: [settle], then [retryCondition]. *)
Definition post_probe : RequestConfig :=
  {| cfg_method := "post"; cfg_url := ""; cfg_timeout := 0;
     cfg_headers := []; cfg_params := None; cfg_data := None |}.

Definition transient (isRetryAllowed : option string -> bool)
    (raw : AdapterResult) : bool :=
  match settle accepts_status post_probe raw with
  | inl _ => false
  | inr err => retryCondition isRetryAllowed err
  end.

(** The warning of the constructor. *)
Definition url_warning : Event := EvWarn "url is empty, all operations will ignore".

(** Reading a JSON string literal back: the inverse of [json_quote],
    used to show that quoting loses nothing. *)
Definition hex_value (c : ascii) : Z :=
  let n := char_code c in
  if is_digit c then n - 48
  else if (97 <=? n) && (n <=? 102) then n - 87
  else n - 55.

Definition simple_escape (e : ascii) : option ascii :=
  if Ascii.eqb e dquote then Some dquote
  else if Ascii.eqb e "\" then Some "\"%char
  else if Ascii.eqb e "b" then Some (char_of_code 8)
  else if Ascii.eqb e "t" then Some (char_of_code 9)
  else if Ascii.eqb e "n" then Some (char_of_code 10)
  else if Ascii.eqb e "f" then Some (char_of_code 12)
  else if Ascii.eqb e "r" then Some (char_of_code 13)
  else None.

Fixpoint json_unescape (l : list ascii) : option (list ascii) :=
  match l with
  | [] => Some []
  | c :: rest =>
      if Ascii.eqb c "\" then
        match rest with
        | [] => None
        | e :: rest' =>
            if Ascii.eqb e "u" then
              match rest' with
              | _ :: _ :: h1 :: h2 :: rest'' =>
                  cons (char_of_code (16 * hex_value h1 + hex_value h2))
                    <$> json_unescape rest''
              | _ => None
              end
            else
              match simple_escape e with
              | Some x => cons x <$> json_unescape rest'
              | None => None
              end
        end
      else cons c <$> json_unescape rest
  end.

Definition json_unquote (s : string) : option string :=
  match String.list_ascii_of_string s with
  | q :: rest =>
      match rev rest with
      | q' :: body =>
          if Ascii.eqb q dquote && Ascii.eqb q' dquote
          then string_of_chars <$> json_unescape (rev body)
          else None
      | [] => None
      end
  | [] => None
  end.

(** Undoing [encodeURIComponent]: a percent escape gives back its byte. *)
Fixpoint percent_decode (l : list ascii) : option (list ascii) :=
  match l with
  | [] => Some []
  | c :: rest =>
      if Ascii.eqb c "%" then
        match rest with
        | h1 :: h2 :: rest' =>
            cons (char_of_code (16 * hex_value h1 + hex_value h2))
              <$> percent_decode rest'
        | _ => None
        end
      else cons c <$> percent_decode rest
  end.

(** More mock transports and configurations. *)
Definition always_500 : nat -> RequestConfig -> AdapterResult :=
  fun _ _ => HttpResponse 500 (JStr "Internal Server Error").


Definition aborted_failure : AdapterResult :=
  NetworkFailure (Some "ECONNABORTED"%string) "Request aborted".



Definition null_body_adapter : nat -> RequestConfig -> AdapterResult :=
  fun _ _ => HttpResponse 200 JNull.

Definition opts_negative_retries : RobotConstructorOptions :=
  {| opts_url := Some "http://localhost/hook"%string; opts_accessToken := None;
     opts_secret := None; opts_timeout := None; opts_retries := Some (-1) |}.

Definition opts_empty_url : RobotConstructorOptions :=
  {| opts_url := Some ""%string; opts_accessToken := Some ""%string;
     opts_secret := Some "SEC"%string; opts_timeout := None;
     opts_retries := None |}.

(** ** Known answers for the primitives *)

Example sha256_abc :
  hex_of_bytes (SHA256.sha256 (utf8_bytes "abc"))
  = "BA7816BF8F01CFEA414140DE5DAE2223B00361A396177A9CB410FF61F20015AD"%string.
Proof. vm_compute. reflexivity. Qed.

Example sha256_empty :
  hex_of_bytes (SHA256.sha256 [])
  = "E3B0C44298FC1C149AFBF4C8996FB92427AE41E4649B934CA495991B7852B855"%string.
Proof. vm_compute. reflexivity. Qed.

Example sha256_two_blocks :
  hex_of_bytes (SHA256.sha256 (utf8_bytes
    "abcdbcdecdefdefgefghfghighijhijkijkljklmklmnlmnomnopnopq"))
  = "248D6A61D20638B8E5C026930C3E6039A33CE45964FF2167F6ECEDD419DB06C1"%string.
Proof. vm_compute. reflexivity. Qed.

(** RFC 4231, test case 2. *)
Example hmac_rfc4231_2 :
  hex_of_bytes (SHA256.hmac (utf8_bytes "Jefe")
                            (utf8_bytes "what do ya want for nothing?"))
  = "5BDCC146BF60754E6A042426089575C75A003F089D2739839DEC58B964EC3843"%string.
Proof. vm_compute. reflexivity. Qed.

(** RFC 4648, section 10. *)
Example base64_foobar :
  (base64 (utf8_bytes "f"), base64 (utf8_bytes "fo"), base64 (utf8_bytes "foobar"))
  = ("Zg==", "Zm8=", "Zm9vYmFy")%string.
Proof. vm_compute. reflexivity. Qed.

Example encodeURIComponent_b64 :
  encodeURIComponent "a+b/c=d e" = "a%2Bb%2Fc%3Dd%20e"%string.
Proof. vm_compute. reflexivity. Qed.

Example stringify_drops_undefined :
  JSON_stringify (JObj [("a", JNum 1); ("b", JUndefined);
                        ("c", JArr [JUndefined; JStr "x"])]%string)
  = Some (js "{'a':1,'c':[null,'x']}").
Proof. vm_compute. reflexivity. Qed.


Example text_body_hello :
  JSON_stringify (text_payload (inl "hello"%string))
  = Some (js "{'msgtype':'text','text':{'content':'hello'}}").
Proof. vm_compute. reflexivity. Qed.

Example text_body_mentions :
  JSON_stringify (text_payload
    (inr {| content := "hi"; text_at := Some sample_mentions |}))
  = Some (js "{'msgtype':'text','text':{'content':'hi','at':{'atMobiles':['13800000000'],'isAtAll':false}}}").
Proof. vm_compute. reflexivity. Qed.

Example sign_known :
  sign "SEC" 1700000000000 = Signer_sign_spec "SEC" 1700000000000
  /\ url_safe (sign "SEC" 1700000000000) = true.
Proof. vm_compute. split; reflexivity. Qed.

Example run_flaky :
  let r := construct allow_all opts_token (env_of (flaky_adapter 2)) [] in
  let '(o, tr) := request r (text_payload (inl "hello"%string))
                          (env_of (flaky_adapter 2)) [] in
  o = Some Resolves
  /\ timeline tr = [Attempt 500; Wait 1000; Attempt 500; Wait 1000; Attempt 500]
  /\ map (param "_") (sends tr)
     = [Some (JNum 1700000000002); Some (JNum 1700000000004);
        Some (JNum 1700000000006)]
  /\ map (param "timestamp") (sends tr)
     = [Some (JNum 1700000000000); Some (JNum 1700000000000);
        Some (JNum 1700000000000)].
Proof. vm_compute. repeat split; reflexivity. Qed.

(** ** Percent-encoding and base64 produce URL-safe text *)

Section Encoding.

Lemma nth_Forall_default {A} (P : A -> Prop) (l : list A) (d : A) (n : nat) :
  Forall P l -> P d -> P (nth n l d).
Proof.
  intros Hl Hd. revert n.
  induction Hl as [|x l Hx _ IH]; intros [|n]; simpl; auto.
Qed.

Lemma hex_digit_is_hex (i : Z) : is_hex (hex_digit i) = true.
Proof.
  unfold hex_digit.
  apply (nth_Forall_default (fun c => is_hex c = true)); [|reflexivity].
  repeat constructor.
Qed.

Lemma uri_unreserved_not_percent (c : ascii) :
  uri_unreserved c = true -> Ascii.eqb c "%" = false.
Proof.
  intros H. destruct (Ascii.eqb_spec c "%") as [->|]; [|reflexivity].
  vm_compute in H. discriminate.
Qed.

Lemma percent_encoding_safe (l : list ascii) :
  url_safe_chars
    (flat_map (fun c => if uri_unreserved c then [c] else percent_escape c) l)
  = true.
Proof.
  induction l as [|c l IH]; [reflexivity|].
  cbn [flat_map]. set (rest := flat_map _ l) in *.
  destruct (uri_unreserved c) eqn:Hc.
  - cbn [app url_safe_chars].
    rewrite (uri_unreserved_not_percent c Hc), Hc, IH. reflexivity.
  - unfold percent_escape. cbn [app url_safe_chars].
    replace (Ascii.eqb "%" "%") with true by reflexivity.
    rewrite !hex_digit_is_hex, IH. reflexivity.
Qed.

Lemma encodeURIComponent_url_safe (s : string) :
  url_safe (encodeURIComponent s) = true.
Proof.
  unfold url_safe, encodeURIComponent, string_of_chars.
  rewrite String.list_ascii_of_string_of_list_ascii.
  apply percent_encoding_safe.
Qed.

Lemma b64_char_ok (i : Z) : base64_char (b64_char i).
Proof.
  unfold b64_char.
  apply (nth_Forall_default base64_char).
  - apply Forall_forall. intros c Hc. unfold base64_char.
    apply in_or_app. left. apply list_elem_of_In. exact Hc.
  - vm_compute. tauto.
Qed.

Lemma pad_char_ok : base64_char "="%char.
Proof. unfold base64_char. apply in_or_app. right. left. reflexivity. Qed.

Lemma base64_chars_ok_upto (n : nat) :
  forall bs, (length bs <= n)%nat -> Forall base64_char (base64_chars bs).
Proof.
  induction n as [|n IH]; intros [|a [|b [|c rest]]] Hlen;
    cbn [base64_chars length] in *; try lia;
    repeat (constructor; [first [apply b64_char_ok | apply pad_char_ok]|]);
    try (constructor; fail).
  apply IH. lia.
Qed.

Lemma base64_chars_ok (bs : list Z) : Forall base64_char (base64_chars bs).
Proof. apply (base64_chars_ok_upto (length bs)). lia. Qed.

Lemma escape_of_base64_char (c : ascii) :
  base64_char c ->
  Forall (fun x => alnum_or_percent x = true)
         (if uri_unreserved c then [c] else percent_escape c).
Proof.
  intros Hc.
  assert (H : forallb (fun c => forallb alnum_or_percent
              (if uri_unreserved c then [c] else percent_escape c))
            (base64_alphabet ++ ["="%char]) = true) by (vm_compute; reflexivity).
  rewrite forallb_forall in H. specialize (H c Hc).
  apply Forall_forall. intros x Hx. rewrite forallb_forall in H.
  apply H. apply list_elem_of_In. exact Hx.
Qed.

Lemma encoded_base64_alnum (bs : list Z) :
  Forall (fun x => alnum_or_percent x = true)
         (String.list_ascii_of_string (encodeURIComponent (base64 bs))).
Proof.
  unfold encodeURIComponent, base64, string_of_chars.
  rewrite !String.list_ascii_of_string_of_list_ascii.
  induction (base64_chars_ok bs) as [|c l Hc _ IH]; cbn [flat_map].
  - constructor.
  - apply Forall_app. split; [apply escape_of_base64_char; exact Hc | exact IH].
Qed.

End Encoding.

(** ** The constructor *)

Lemma construct_fields (lib : option string -> bool)
    (opts : RobotConstructorOptions) (env : Env) (tr : list Event) :
  construct lib opts env tr =
  {| url := if truthy (opts_accessToken opts)
            then Some ("https://oapi.dingtalk.com/robot/send?access_token="
                       +:+ default ""%string (opts_accessToken opts))
            else opts_url opts;
     secret := opts_secret opts;
     timeout := num_or (opts_timeout opts) 3000;
     retries := num_or (opts_retries opts) 10;
     axiosInstance := robot_instance lib (num_or (opts_retries opts) 10) |}.
Proof.
  unfold construct, Robot_constructor, bind.
  destruct (negb _); reflexivity.
Qed.

Lemma construct_instance lib opts env tr :
  axiosInstance (construct lib opts env tr)
  = robot_instance lib (retries (construct lib opts env tr)).
Proof. rewrite construct_fields. reflexivity. Qed.

(** ** One exchange of the robot's axios instance *)

Lemma sent_app (a b : list Event) : sent (a ++ b) = (sent a + sent b)%nat.
Proof.
  induction a as [|e a IH]; [reflexivity|].
  destruct e; cbn [app sent]; rewrite IH; reflexivity.
Qed.

Lemma dispatch_step lib R fuel st cfg env tr :
  axios_dispatch fuel (robot_instance lib R) st cfg env tr =
  let t1 := clock env (reads tr) in
  let t2 := clock env (S (reads tr)) in
  let c1 := with_params (with_method cfg (toLowerCase (cfg_method cfg)))
              (<["_"%string := JNum t2]> (default ∅ (cfg_params cfg))) in
  let tr1 := EvSend c1 :: EvNow t2 :: EvNow t1 :: tr in
  match settle (validateStatus (robot_instance lib R)) c1
               (adapter env (sent tr) c1) with
  | inl resp => (Some (inl resp), tr1)
  | inr err =>
      if (retryCount st <? R) && retryCondition lib err then
        match fuel with
        | S fuel' =>
            axios_dispatch fuel' (robot_instance lib R)
              {| retryCount := retryCount st + 1; lastRequestTime := Some t1 |}
              c1 env (EvSleep 1000 :: tr1)
        | O => (None, EvSleep 1000 :: tr1)
        end
      else (Some (inr err), tr1)
  end.
Proof.
  destruct fuel; cbn [axios_dispatch]; unfold robot_instance;
    cbn [request_interceptor validateStatus retry_config ar_retries
         ar_retryCondition ar_retryDelay ar_shouldResetTimeout
         retryCount lastRequestTime];
    unfold bind, Date_now, call_adapter, stamp_request, shrink_timeout,
      setTimeout, ret;
    cbn [lastRequestTime ar_shouldResetTimeout negb andb];
    unfold bind, Date_now, ret; cbv beta iota zeta;
    cbn [reads sent cfg_params with_method];
    destruct (settle _ _ _) as [resp|err]; try reflexivity;
    destruct (_ && _); reflexivity.
Qed.

Lemma settle_accepts lib R c s body :
  200 <= s < 300 ->
  settle (validateStatus (robot_instance lib R)) c (HttpResponse s body)
  = inl {| resp_status := s; resp_data := body |}.
Proof.
  intros Hs. unfold settle, robot_instance. cbn [validateStatus].
  replace ((200 <=? s) && (s <? 300)) with true; [reflexivity|].
  symmetry. apply andb_true_intro. split; [apply Z.leb_le | apply Z.ltb_lt]; lia.
Qed.

Lemma settle_refuses lib R c s body :
  ~ (200 <= s < 300) ->
  settle (validateStatus (robot_instance lib R)) c (HttpResponse s body)
  = inr (status_error c s body).
Proof.
  intros Hs. unfold settle, robot_instance. cbn [validateStatus].
  replace ((200 <=? s) && (s <? 300)) with false; [reflexivity|].
  symmetry. apply andb_false_iff.
  destruct (Z.leb_spec 200 s); [right; apply Z.ltb_ge; lia | left; reflexivity].
Qed.

(** On an error raised for a refused status, the retry condition comes
    down to its last test: the status is 500 or more. *)
Lemma retryCondition_status_error lib c s body :
  retryCondition lib (status_error c s body) = (500 <=? s).
Proof.
  unfold retryCondition, isNetworkOrIdempotentRequestError, isNetworkError,
    isIdempotentRequestError, isRetryableError, code_is, status_error,
    bad_status_code.
  cbn [err_response err_code err_message err_config resp_status andb orb].
  destruct (s / 100 - 4 =? 0); [|destruct (s / 100 - 4 =? 1)];
    cbn [String.eqb Ascii.eqb Bool.eqb andb orb negb];
    destruct (500 <=? s); destruct (s <=? 599); cbn [andb orb];
    try reflexivity; destruct (bool_decide _); reflexivity.
Qed.

Lemma timeline_app (a b : list Event) : timeline (a ++ b) = timeline b ++ timeline a.
Proof. unfold timeline. rewrite rev_app_distr. apply omap_app. Qed.

(** ** Retrying until the transport succeeds *)

Lemma dispatch_flaky lib R env s_ok body :
  200 <= s_ok < 300 ->
  forall (m fuel : nat) st cfg tr,
    (m <= fuel)%nat ->
    retryCount st + Z.of_nat m <= R ->
    (forall k c, (k < m)%nat ->
       exists s b, 500 <= s /\ adapter env (sent tr + k)%nat c = HttpResponse s b) ->
    (forall c, adapter env (sent tr + m)%nat c = HttpResponse s_ok body) ->
    exists evs,
      axios_dispatch fuel (robot_instance lib R) st cfg env tr
      = (Some (inl {| resp_status := s_ok; resp_data := body |}), evs ++ tr)
      /\ sent evs = S m
      /\ timeline evs = Attempt (cfg_timeout cfg) :: retry_rounds m (cfg_timeout cfg).
Proof.
  intros Hok. induction m as [|m IH]; intros fuel st cfg tr Hfuel Hbudget Hfail Hsucc.
  - rewrite dispatch_step. cbv zeta.
    replace (sent tr) with (sent tr + 0)%nat by lia.
    rewrite Hsucc, settle_accepts by exact Hok.
    eexists [_; _; _]. split; [reflexivity|]. split; reflexivity.
  - destruct fuel as [|fuel]; [lia|].
    rewrite dispatch_step. cbv zeta.
    destruct (Hfail 0%nat
                (with_params (with_method cfg (toLowerCase (cfg_method cfg)))
                   (<["_"%string := JNum (clock env (S (reads tr)))]>
                      (default ∅ (cfg_params cfg))))) as (s & b & Hs & Hk); [lia|].
    replace (sent tr + 0)%nat with (sent tr) in Hk by lia.
    rewrite Hk, settle_refuses by lia.
    rewrite retryCondition_status_error.
    replace (retryCount st <? R) with true by (symmetry; apply Z.ltb_lt; lia).
    replace (500 <=? s) with true by (symmetry; apply Z.leb_le; lia).
    cbn [andb].
    match goal with
    | |- context [axios_dispatch fuel _ ?st' ?c1 env ?tr1] =>
        destruct (IH fuel st' c1 tr1) as (evs & Hrun & Hsent & Htl)
    end.
    + lia.
    + cbn [retryCount]. lia.
    + intros k c Hlt. cbn [sent].
      replace (S (sent tr) + k)%nat with (sent tr + S k)%nat by lia.
      apply Hfail. lia.
    + intros c. cbn [sent].
      replace (S (sent tr) + m)%nat with (sent tr + S m)%nat by lia.
      apply Hsucc.
    + rewrite Hrun.
      match goal with
      | |- context [evs ++ ?a :: ?b :: ?c :: ?d :: tr] =>
          exists (evs ++ [a; b; c; d])
      end.
      split; [rewrite <- app_assoc; reflexivity|].
      split.
      * rewrite sent_app, Hsent. cbn [sent]. lia.
      * rewrite timeline_app, Htl. reflexivity.
Qed.

(** ** What every run of the instance sends *)

Lemma stamped_app (a b : list Event) : stamped a -> stamped b -> stamped (a ++ b).
Proof.
  induction a as [|e a IH]; intros Ha Hb; [exact Hb|].
  destruct e; cbn [app stamped] in *; auto.
  destruct Ha as [Hnext Ha]. split; [|auto].
  destruct a as [|[] a]; cbn [app]; solve [exact Hnext | destruct Hnext].
Qed.

Lemma derived_from_trans c0 c1 c2 :
  derived_from c0 c1 -> derived_from c1 c2 -> derived_from c0 c2.
Proof.
  unfold derived_from. intros (U1 & T1 & H1 & D1 & P1) (U2 & T2 & H2 & D2 & P2).
  repeat split; try congruence.
  intros k Hk. rewrite P2, P1 by exact Hk. reflexivity.
Qed.

Lemma stamp_derived cfg t :
  derived_from cfg
    (with_params (with_method cfg (toLowerCase (cfg_method cfg)))
       (<["_"%string := JNum t]> (default ∅ (cfg_params cfg)))).
Proof.
  unfold derived_from, param. cbn. repeat split.
  intros k Hk. rewrite lookup_insert_ne by congruence.
  destruct (cfg_params cfg); [reflexivity | apply lookup_empty].
Qed.

Lemma stamp_param cfg t :
  param "_"
    (with_params (with_method cfg (toLowerCase (cfg_method cfg)))
       (<["_"%string := JNum t]> (default ∅ (cfg_params cfg))))
  = Some (JNum t).
Proof. unfold param. cbn. apply lookup_insert_eq. Qed.

Lemma dispatch_sends lib R env :
  forall (fuel : nat) st cfg tr,
    R - retryCount st <= Z.of_nat fuel ->
    exists res evs,
      axios_dispatch fuel (robot_instance lib R) st cfg env tr
      = (Some res, evs ++ tr)
      /\ stamped evs
      /\ (1 <= sent evs <= S fuel)%nat
      /\ forall c, EvSend c ∈ evs -> derived_from cfg c.
Proof.
  induction fuel as [|fuel IH]; intros st cfg tr Hfuel;
    rewrite dispatch_step; cbv zeta;
    set (c1 := with_params _ _);
    (assert (Hone : forall (res : AxiosResponse + AxiosError) (bound : nat),
       exists res' evs,
         (Some res, EvSend c1 :: EvNow (clock env (S (reads tr)))
                      :: EvNow (clock env (reads tr)) :: tr)
         = (Some res', evs ++ tr)
         /\ stamped evs
         /\ (1 <= sent evs <= S bound)%nat
         /\ forall c, EvSend c ∈ evs -> derived_from cfg c);
     [intros res bound; exists res; eexists [_; _; _];
      split; [reflexivity|]; split;
      [cbn [stamped]; split; [apply stamp_param | exact I]|];
      split; [cbn [sent]; lia|];
      intros c Hc; apply list_elem_of_In in Hc;
      destruct Hc as [Hc|[Hc|[Hc|[]]]]; try discriminate;
      injection Hc as <-; apply stamp_derived|]).
  - destruct (settle _ _ _) as [resp|err]; [apply Hone|].
    destruct (retryCount st <? R) eqn:Hlt.
    + apply Z.ltb_lt in Hlt. lia.
    + cbn [andb]. apply Hone.
  - destruct (settle _ _ _) as [resp|err]; [apply Hone|].
    destruct ((retryCount st <? R) && retryCondition lib err); [|apply Hone].
    match goal with
    | |- context [axios_dispatch fuel _ ?st' c1 env ?tr1] =>
        destruct (IH st' c1 tr1) as (res & evs & Hrun & Hst & Hsent & Hder)
    end.
    { cbn [retryCount]. lia. }
    rewrite Hrun.
    exists res, (evs ++ [EvSleep 1000; EvSend c1;
                          EvNow (clock env (S (reads tr)));
                          EvNow (clock env (reads tr))]).
    split; [rewrite <- app_assoc; reflexivity|].
    split.
    { apply stamped_app; [exact Hst|].
      cbn [stamped]. split; [apply stamp_param | exact I]. }
    split.
    { rewrite sent_app. cbn [sent]. lia. }
    intros c Hc. apply elem_of_app in Hc as [Hc|Hc].
    + apply (derived_from_trans cfg c1 c); [apply stamp_derived | apply Hder, Hc].
    + apply list_elem_of_In in Hc.
      destruct Hc as [Hc|[Hc|[Hc|[Hc|[]]]]]; try discriminate.
      injection Hc as <-. apply stamp_derived.
Qed.

(** ** [request] *)

Lemma request_disabled r data env tr :
  truthy (url r) = false ->
  request r data env tr = (Some ReturnsUndefined, tr).
Proof. intros H. unfold request. rewrite H. reflexivity. Qed.

Lemma request_enabled r data env tr :
  truthy (url r) = true ->
  request r data env tr =
  let T := clock env (reads tr) in
  let tr0 := if truthy (secret r) then EvNow T :: tr else tr in
  let '(settled, tr') :=
    axios_request (axiosInstance r) (request_config r data T) env tr0 in
  (match settled with
   | None => None
   | Some (inl resp) => Some (check_envelope resp)
   | Some (inr err) => Some (Rejects (AxiosErr err))
   end, tr').
Proof.
  intros H. unfold request, request_config, base_params. rewrite H.
  cbn [negb]. unfold bind at 1.
  destruct (truthy (secret r)); unfold bind, Date_now, ret; reflexivity.
Qed.

Lemma secret_read_app r T tr :
  (if truthy (secret r) then EvNow T :: tr else tr) = secret_read r T ++ tr.
Proof. unfold secret_read. destruct (truthy (secret r)); reflexivity. Qed.

Lemma secret_read_facts r T :
  stamped (secret_read r T) /\ sent (secret_read r T) = 0%nat
  /\ timeline (secret_read r T) = []
  /\ forall c, EvSend c ∉ secret_read r T.
Proof.
  unfold secret_read. destruct (truthy (secret r)); cbn; repeat split; auto;
    intros c Hc; apply list_elem_of_In in Hc; cbn in Hc; intuition discriminate.
Qed.

Lemma request_sends lib r data env tr :
  axiosInstance r = robot_instance lib (retries r) ->
  truthy (url r) = true ->
  exists o evs,
    request r data env tr = (Some o, evs ++ tr)
    /\ stamped evs
    /\ (1 <= sent evs <= S (Z.to_nat (retries r)))%nat
    /\ forall c, EvSend c ∈ evs ->
         derived_from (request_config r data (clock env (reads tr))) c.
Proof.
  intros Hinst Hurl. rewrite request_enabled by exact Hurl. cbv zeta.
  unfold axios_request. rewrite Hinst. cbn [retry_config robot_instance ar_retries].
  rewrite secret_read_app.
  destruct (secret_read_facts r (clock env (reads tr))) as (F1 & F2 & _ & F4).
  match goal with
  | |- context [axios_dispatch ?fuel _ ?st ?cfg env ?tr1] =>
      destruct (dispatch_sends lib (retries r) env fuel st cfg tr1)
        as (res & evs & Hrun & Hst & Hsent & Hder)
  end.
  { cbn [retryCount]. lia. }
  rewrite Hrun.
  exists (match res with
          | inl resp => check_envelope resp
          | inr err => Rejects (AxiosErr err)
          end), (evs ++ secret_read r (clock env (reads tr))).
  split; [rewrite <- app_assoc; destruct res; reflexivity|].
  split; [apply stamped_app; assumption|].
  split; [rewrite sent_app, F2; lia|].
  intros c Hc. apply elem_of_app in Hc as [Hc|Hc]; [apply Hder, Hc|].
  destruct (F4 c Hc).
Qed.

(** A response the instance accepts ends the call after one exchange. *)
Lemma request_accepted lib r data env tr s body :
  axiosInstance r = robot_instance lib (retries r) ->
  truthy (url r) = true ->
  200 <= s < 300 ->
  (forall c, adapter env (sent tr) c = HttpResponse s body) ->
  exists evs,
    request r data env tr
    = (Some (check_envelope {| resp_status := s; resp_data := body |}), evs ++ tr)
    /\ sent evs = 1%nat
    /\ timeline evs = [Attempt (timeout r)].
Proof.
  intros Hinst Hurl Hs Hresp. rewrite request_enabled by exact Hurl. cbv zeta.
  unfold axios_request. rewrite Hinst. rewrite secret_read_app.
  destruct (secret_read_facts r (clock env (reads tr))) as (_ & F2 & F3 & _).
  rewrite dispatch_step. cbv zeta. rewrite sent_app, F2. cbn [Nat.add].
  rewrite Hresp, settle_accepts by exact Hs.
  eexists (_ :: _ :: _ :: secret_read r _).
  split; [reflexivity|]. split.
  - cbn [sent]. rewrite F2. reflexivity.
  - change (?a :: ?b :: ?c :: secret_read r ?T)
      with ([a; b; c] ++ secret_read r T).
    rewrite timeline_app, F3. reflexivity.
Qed.

(** A refused status below 500 ends the call after one exchange. *)
Lemma request_refused lib r data env tr s body :
  axiosInstance r = robot_instance lib (retries r) ->
  truthy (url r) = true ->
  ~ (200 <= s < 300) -> s < 500 ->
  (forall c, adapter env (sent tr) c = HttpResponse s body) ->
  exists evs err,
    request r data env tr = (Some (Rejects (AxiosErr err)), evs ++ tr)
    /\ err_response err = Some {| resp_status := s; resp_data := body |}
    /\ sent evs = 1%nat
    /\ timeline evs = [Attempt (timeout r)].
Proof.
  intros Hinst Hurl Hs H5 Hresp. rewrite request_enabled by exact Hurl. cbv zeta.
  unfold axios_request. rewrite Hinst. rewrite secret_read_app.
  destruct (secret_read_facts r (clock env (reads tr))) as (_ & F2 & F3 & _).
  rewrite dispatch_step. cbv zeta. rewrite sent_app, F2. cbn [Nat.add].
  rewrite Hresp, settle_refuses by exact Hs.
  rewrite retryCondition_status_error.
  replace (500 <=? s) with false by (symmetry; apply Z.leb_gt; lia).
  rewrite andb_false_r.
  eexists (_ :: _ :: _ :: secret_read r _), _.
  split; [reflexivity|]. split; [reflexivity|]. split.
  - cbn [sent]. rewrite F2. reflexivity.
  - change (?a :: ?b :: ?c :: secret_read r ?T)
      with ([a; b; c] ++ secret_read r T).
    rewrite timeline_app, F3. reflexivity.
Qed.

Lemma check_envelope_fields s fs errcode errmsg :
  js_get "errcode" fs = JNum errcode ->
  js_get "errmsg" fs = JStr errmsg ->
  check_envelope {| resp_status := s; resp_data := JObj fs |}
  = if errcode =? 0 then Resolves else Rejects (remote_rejection errcode errmsg).
Proof.
  intros Hc Hm. unfold check_envelope, remote_rejection. cbn [resp_data].
  rewrite Hc, Hm. destruct errcode; reflexivity.
Qed.

(** ** The claims *)

(** C1. With a retry budget [retries r >= 0], a transport that answers
    status 500 on each of the first [retries r] exchanges and then a
    2xx response whose envelope has [errcode] 0 makes [request] resolve;
    the transport is called exactly [retries r + 1] times, every retry
    comes after a wait of 1000 ms, and every attempt carries the
    configured timeout. *)
Theorem send_retries_until_success lib opts env0 tr0 data env tr s_ok fs :
  let r := construct lib opts env0 tr0 in
  let n := Z.to_nat (retries r) in
  truthy (url r) = true ->
  0 <= retries r ->
  (forall k c, (k < n)%nat ->
     exists b, adapter env (sent tr + k)%nat c = HttpResponse 500 b) ->
  (forall c, adapter env (sent tr + n)%nat c = HttpResponse s_ok (JObj fs)) ->
  200 <= s_ok < 300 ->
  js_get "errcode" fs = JNum 0 ->
  exists evs,
    request r data env tr = (Some Resolves, evs ++ tr)
    /\ succeeds Resolves = true
    /\ Z.of_nat (sent evs) = retries r + 1
    /\ timeline evs = Attempt (timeout r) :: retry_rounds n (timeout r).
Proof.
  intros r n Hurl Hnonneg Hfail Hsucc Hok Hcode.
  rewrite request_enabled by exact Hurl. cbv zeta.
  pose proof (construct_instance lib opts env0 tr0) as Hinst. fold r in Hinst.
  unfold axios_request. rewrite Hinst.
  cbn [retry_config robot_instance ar_retries]. fold n.
  rewrite secret_read_app.
  destruct (secret_read_facts r (clock env (reads tr))) as (_ & F2 & F3 & _).
  match goal with
  | |- context [axios_dispatch n _ ?st ?cfg env ?tr1] =>
      destruct (dispatch_flaky lib (retries r) env s_ok (JObj fs) Hok
                  n n st cfg tr1) as (evs & Hrun & Hsent & Htl)
  end.
  - lia.
  - cbn [retryCount]. lia.
  - intros k c Hk. rewrite sent_app, F2. cbn [Nat.add].
    destruct (Hfail k c Hk) as [b Hb]. exists 500, b. split; [lia | exact Hb].
  - intros c. rewrite sent_app, F2. cbn [Nat.add]. apply Hsucc.
  - rewrite Hrun. exists (evs ++ secret_read r (clock env (reads tr))).
    split.
    { rewrite <- app_assoc. unfold check_envelope. cbn [resp_data].
      rewrite Hcode. reflexivity. }
    split; [reflexivity|]. split.
    + rewrite sent_app, Hsent, F2. lia.
    + rewrite timeline_app, F3, Htl. reflexivity.
Qed.

Lemma send_retries_until_success_witness :
  let r := construct allow_all opts_token (env_of (flaky_adapter 2)) [] in
  exists evs,
    request r (text_payload (inl "hello"%string)) (env_of (flaky_adapter 2)) []
    = (Some Resolves, evs ++ [])
    /\ succeeds Resolves = true
    /\ Z.of_nat (sent evs) = retries r + 1
    /\ timeline evs
       = Attempt (timeout r) :: retry_rounds (Z.to_nat (retries r)) (timeout r).
Proof.
  apply (send_retries_until_success allow_all opts_token
           (env_of (flaky_adapter 2)) [] (text_payload (inl "hello"%string))
           (env_of (flaky_adapter 2)) [] 200
           [("errcode", JNum 0); ("errmsg", JStr "ok")]%string).
  - reflexivity.
  - vm_compute. discriminate.
  - intros k c Hk. exists (JStr "Internal Server Error").
    change (Z.to_nat _) with 2%nat in Hk.
    destruct k as [|[|k]]; [reflexivity | reflexivity | lia].
  - intros c. reflexivity.
  - lia.
  - reflexivity.
Defined.

(** C3. A 2xx response is never retried: the transport is called once.
    When its envelope has a non-zero [errcode], [request] rejects with
    an error whose message carries that [errcode] and that [errmsg];
    when [errcode] is 0 it resolves. *)
Theorem remote_rejection_reported lib opts env0 tr0 data env tr s fs errcode errmsg :
  let r := construct lib opts env0 tr0 in
  truthy (url r) = true ->
  200 <= s < 300 ->
  (forall c, adapter env (sent tr) c = HttpResponse s (JObj fs)) ->
  js_get "errcode" fs = JNum errcode ->
  js_get "errmsg" fs = JStr errmsg ->
  exists evs,
    request r data env tr
    = (Some (if errcode =? 0 then Resolves
             else Rejects (remote_rejection errcode errmsg)), evs ++ tr)
    /\ sent evs = 1%nat.
Proof.
  intros r Hurl Hs Hresp Hc Hm.
  destruct (request_accepted lib r data env tr s (JObj fs)
              (construct_instance lib opts env0 tr0) Hurl Hs Hresp)
    as (evs & Hrun & Hsent & _).
  exists evs. rewrite Hrun, (check_envelope_fields s fs errcode errmsg Hc Hm).
  split; [reflexivity | exact Hsent].
Qed.

Lemma remote_rejection_reported_witness :
  exists evs,
    request (construct allow_all opts_token (env_of rejecting_adapter) [])
            (text_payload (inl "hello"%string)) (env_of rejecting_adapter) []
    = (Some (Rejects (Error
         "request dingtalk fail, errorcode '1', errormsg 'token invalid'")),
       evs ++ [])
    /\ sent evs = 1%nat.
Proof.
  apply (remote_rejection_reported allow_all opts_token
           (env_of rejecting_adapter) [] (text_payload (inl "hello"%string))
           (env_of rejecting_adapter) [] 200
           [("errcode", JNum 1); ("errmsg", JStr "token invalid")]%string
           1 "token invalid"%string).
  - reflexivity.
  - lia.
  - intros c. reflexivity.
  - reflexivity.
  - reflexivity.
Defined.

(** C8. A response with a status in [400,500) makes [request] reject
    after exactly one exchange, and a response with a status in
    [200,300) is settled after exactly one exchange whatever its envelope
    says: neither is retried. *)
Theorem client_error_not_retried lib opts env0 tr0 data env tr s body :
  let r := construct lib opts env0 tr0 in
  truthy (url r) = true ->
  (forall c, adapter env (sent tr) c = HttpResponse s body) ->
  (400 <= s < 500 ->
   exists evs err,
     request r data env tr = (Some (Rejects (AxiosErr err)), evs ++ tr)
     /\ err_response err = Some {| resp_status := s; resp_data := body |}
     /\ sent evs = 1%nat
     /\ timeline evs = [Attempt (timeout r)])
  /\ (200 <= s < 300 ->
      exists evs,
        request r data env tr
        = (Some (check_envelope {| resp_status := s; resp_data := body |}),
           evs ++ tr)
        /\ sent evs = 1%nat
        /\ timeline evs = [Attempt (timeout r)]).
Proof.
  intros r Hurl Hresp. split; intros Hs.
  - apply (request_refused lib r data env tr s body
             (construct_instance lib opts env0 tr0) Hurl); [lia | lia | exact Hresp].
  - apply (request_accepted lib r data env tr s body
             (construct_instance lib opts env0 tr0) Hurl Hs Hresp).
Qed.

Lemma client_error_not_retried_witness :
  exists evs err,
    request (construct allow_all opts_token (env_of bad_request_adapter) [])
            (text_payload (inl "hello"%string)) (env_of bad_request_adapter) []
    = (Some (Rejects (AxiosErr err)), evs ++ [])
    /\ err_response err
       = Some {| resp_status := 400; resp_data := JStr "Bad Request" |}
    /\ sent evs = 1%nat
    /\ timeline evs = [Attempt 500].
Proof.
  pose proof (client_error_not_retried allow_all opts_token
                (env_of bad_request_adapter) []
                (text_payload (inl "hello"%string))
                (env_of bad_request_adapter) [] 400 (JStr "Bad Request")) as H.
  cbv zeta in H.
  destruct H as [H _]; [reflexivity | intros c; reflexivity |].
  apply H. lia.
Defined.

(** C4. A robot built with neither [url] nor [accessToken] does nothing
    on [request]: the call returns at once without a failure and the
    trace is unchanged, so no request is sent; the same holds for each
    of the five builders. *)
Theorem unconfigured_send_is_noop lib opts env0 tr0 env tr :
  let r := construct lib opts env0 tr0 in
  opts_url opts = None ->
  opts_accessToken opts = None ->
  succeeds ReturnsUndefined = true
  /\ (forall data, request r data env tr = (Some ReturnsUndefined, tr))
  /\ (forall arg, text r arg env tr = (Some ReturnsUndefined, tr))
  /\ (forall arg, markdown r arg env tr = (Some ReturnsUndefined, tr))
  /\ (forall d, link r d env tr = (Some ReturnsUndefined, tr))
  /\ (forall d, actionCard r d env tr = (Some ReturnsUndefined, tr))
  /\ (forall d, feedCard r d env tr = (Some ReturnsUndefined, tr)).
Proof.
  intros r Hu Ht.
  assert (Hoff : truthy (url r) = false).
  { unfold r. rewrite construct_fields. cbn [url]. rewrite Ht, Hu. reflexivity. }
  split; [reflexivity|].
  unfold text, markdown, link, actionCard, feedCard.
  repeat split; intros; apply request_disabled, Hoff.
Qed.

Lemma unconfigured_send_is_noop_witness :
  request (construct allow_all opts_unconfigured (env_of rejecting_adapter) [])
          (text_payload (inl "hello"%string)) (env_of rejecting_adapter) []
  = (Some ReturnsUndefined, []).
Proof.
  pose proof (unconfigured_send_is_noop allow_all opts_unconfigured
                (env_of rejecting_adapter) [] (env_of rejecting_adapter) []) as H.
  cbv zeta in H.
  destruct H as (_ & H & _); [reflexivity | reflexivity |].
  apply H.
Defined.

Lemma base_params_lookup r T :
  base_params r T !! "timestamp"%string
  = (if truthy (secret r) then Some (JNum T) else None)
  /\ base_params r T !! "sign"%string
     = (if truthy (secret r)
        then Some (JStr (sign (default ""%string (secret r)) T)) else None).
Proof.
  unfold base_params. destruct (truthy (secret r)).
  - split.
    + apply lookup_insert_eq.
    + rewrite lookup_insert_ne by discriminate. apply lookup_singleton_eq.
  - split; apply lookup_empty.
Qed.

Lemma sign_unfold (secret0 : string) (T : Z) :
  sign secret0 T = Signer_sign_spec secret0 T.
Proof.
  unfold sign, Signer_sign_spec, Hmac_digest_base64, Hmac_digest_raw,
    Hmac_update, createHmac_sha256.
  cbn [hmac_key hmac_buf app]. reflexivity.
Qed.

(** What [request] puts in every request it sends. *)
Lemma request_params lib r data env tr :
  axiosInstance r = robot_instance lib (retries r) ->
  truthy (url r) = true ->
  exists o evs,
    request r data env tr = (Some o, evs ++ tr)
    /\ stamped evs
    /\ (1 <= sent evs <= S (Z.to_nat (retries r)))%nat
    /\ forall c, EvSend c ∈ evs ->
         cfg_url c = default ""%string (url r)
         /\ cfg_timeout c = timeout r
         /\ cfg_data c = JSON_stringify data
         /\ param "timestamp" c
            = (if truthy (secret r) then Some (JNum (clock env (reads tr)))
               else None)
         /\ param "sign" c
            = (if truthy (secret r)
               then Some (JStr (Signer_sign_spec (default ""%string (secret r))
                                  (clock env (reads tr))))
               else None).
Proof.
  intros Hinst Hurl.
  destruct (request_sends lib r data env tr Hinst Hurl)
    as (o & evs & Hrun & Hst & Hsent & Hder).
  exists o, evs. repeat split; try assumption; try lia;
    destruct (Hder c H) as (U & T & _ & D & P);
    destruct (base_params_lookup r (clock env (reads tr))) as [Bt Bs];
    try assumption.
  - rewrite P by discriminate. exact Bt.
  - rewrite P by discriminate. rewrite <- sign_unfold. exact Bs.
Qed.

Lemma truthy_nonempty (s : string) : s <> ""%string -> truthy (Some s) = true.
Proof.
  intros H. unfold truthy. destruct (String.eqb_spec s ""); [contradiction | reflexivity].
Qed.

(** C5, as the code has it.  A supplied [retries] [n > 0] is the retry
    budget; an absent one, and a supplied 0, give 10.  A supplied
    [timeout] [t > 0] is the per-attempt timeout; an absent one gives
    3000.  The values never change: the retry library holds the same
    budget, and every request of every later call carries that timeout
    and stays within that budget. *)
Theorem constructor_timeout_and_budget lib opts env0 tr0 :
  let r := construct lib opts env0 tr0 in
  (forall n, opts_retries opts = Some n -> 0 < n -> retries r = n)
  /\ (opts_retries opts = None \/ opts_retries opts = Some 0 -> retries r = 10)
  /\ (forall t, opts_timeout opts = Some t -> 0 < t -> timeout r = t)
  /\ (opts_timeout opts = None -> timeout r = 3000)
  /\ ar_retries (retry_config (axiosInstance r)) = retries r
  /\ (forall data env tr,
        truthy (url r) = true ->
        exists o evs,
          request r data env tr = (Some o, evs ++ tr)
          /\ (sent evs <= S (Z.to_nat (retries r)))%nat
          /\ forall c, EvSend c ∈ evs -> cfg_timeout c = timeout r).
Proof.
  intros r. unfold r. rewrite construct_fields. cbn [retries timeout axiosInstance].
  split; [intros n -> Hn; unfold num_or; destruct (Z.eqb_spec n 0); [lia | reflexivity]|].
  split; [intros [->| ->]; reflexivity|].
  split; [intros t -> Ht; unfold num_or; destruct (Z.eqb_spec t 0); [lia | reflexivity]|].
  split; [intros ->; reflexivity|].
  split; [reflexivity|].
  intros data env tr Hurl.
  match goal with
  | H : truthy (url ?rr) = true |- _ =>
      destruct (request_params lib rr data env tr eq_refl H)
        as (o & evs & Hrun & _ & Hsent & Hall)
  end.
  exists o, evs. split; [exact Hrun|]. split; [apply Hsent|].
  intros c Hc. apply (Hall c Hc).
Qed.

Lemma constructor_timeout_and_budget_witness :
  retries (construct allow_all opts_token (env_of (flaky_adapter 2)) []) = 2
  /\ timeout (construct allow_all opts_token (env_of (flaky_adapter 2)) []) = 500
  /\ retries (construct allow_all opts_empty_secret (env_of (flaky_adapter 2)) []) = 10
  /\ timeout (construct allow_all opts_empty_secret (env_of (flaky_adapter 2)) [])
     = 3000.
Proof.
  pose proof (constructor_timeout_and_budget allow_all opts_token
                (env_of (flaky_adapter 2)) []) as H.
  pose proof (constructor_timeout_and_budget allow_all opts_empty_secret
                (env_of (flaky_adapter 2)) []) as H'.
  cbv zeta in H, H'.
  destruct H as (Hn & _ & Ht & _). destruct H' as (_ & Hn' & _ & Ht' & _).
  split; [apply Hn; [reflexivity | lia]|].
  split; [apply Ht; [reflexivity | lia]|].
  split; [apply Hn'; left; reflexivity | apply Ht'; reflexivity].
Defined.

(** C5 as stated fails at [retries: 0]: the budget is 10, and a transport
    that fails once is tried again. *)
Lemma zero_retries_gives_ten :
  opts_retries opts_zero_retries = Some 0
  /\ retries (construct allow_all opts_zero_retries (env_of (flaky_adapter 1)) []) = 10
  /\ sent (snd (request
                  (construct allow_all opts_zero_retries (env_of (flaky_adapter 1)) [])
                  (text_payload (inl "hello"%string))
                  (env_of (flaky_adapter 1)) [])) = 2%nat
  /\ ~ (forall lib opts env tr n,
          opts_retries opts = Some n -> 0 <= n ->
          retries (construct lib opts env tr) = n).
Proof.
  split; [reflexivity|]. split; [reflexivity|]. split; [vm_compute; reflexivity|].
  intros H.
  specialize (H allow_all opts_zero_retries (env_of (flaky_adapter 1)) [] 0
                eq_refl (Z.le_refl 0)).
  vm_compute in H. discriminate.
Qed.

(** C7, as the code has it.  With a non-empty [accessToken] the robot's
    URL is the one derived from the token, whatever [url] was supplied,
    and every request of every call goes to it. *)
Theorem token_url_overrides lib opts env0 tr0 token :
  let r := construct lib opts env0 tr0 in
  let derived :=
    ("https://oapi.dingtalk.com/robot/send?access_token=" +:+ token)%string in
  opts_accessToken opts = Some token ->
  token <> ""%string ->
  url r = Some derived
  /\ forall data env tr,
       exists o evs,
         request r data env tr = (Some o, evs ++ tr)
         /\ (1 <= sent evs)%nat
         /\ forall c, EvSend c ∈ evs -> cfg_url c = derived.
Proof.
  intros r derived Htok Hne.
  assert (Hurl : url r = Some derived).
  { unfold r. rewrite construct_fields. cbn [url].
    rewrite Htok, (truthy_nonempty token Hne). reflexivity. }
  split; [exact Hurl|]. intros data env tr.
  destruct (request_params lib r data env tr) as (o & evs & Hrun & _ & Hsent & Hall).
  - apply construct_instance.
  - rewrite Hurl. reflexivity.
  - exists o, evs. split; [exact Hrun|]. split; [lia|].
    intros c Hc. destruct (Hall c Hc) as (U & _). rewrite U, Hurl. reflexivity.
Qed.

Lemma token_url_overrides_witness :
  url (construct allow_all opts_token (env_of (flaky_adapter 2)) [])
  = Some "https://oapi.dingtalk.com/robot/send?access_token=abc"%string.
Proof.
  pose proof (token_url_overrides allow_all opts_token
                (env_of (flaky_adapter 2)) [] "abc"%string) as H.
  cbv zeta in H.
  destruct H as [H _]; [reflexivity | discriminate |].
  exact H.
Defined.

(** C7 as stated fails for an [accessToken] that is the empty string:
    the supplied [url] stays in force. *)
Lemma empty_token_keeps_url :
  opts_accessToken opts_empty_token = Some ""%string
  /\ url (construct allow_all opts_empty_token (env_of rejecting_adapter) [])
     = Some "http://localhost/hook"%string
  /\ url (construct allow_all opts_empty_token (env_of rejecting_adapter) [])
     <> Some ("https://oapi.dingtalk.com/robot/send?access_token=" +:+ "")%string.
Proof.
  split; [reflexivity|]. split; [reflexivity|]. vm_compute. discriminate.
Qed.

(** C6, as the code has it.  Every request sent carries [_], the clock
    reading taken just before it goes out.  With a non-empty secret it
    also carries [timestamp], the reading taken when [request] built the
    parameters, and [sign], the Signer's output for the secret and that
    timestamp; with no secret or an empty one it carries neither. *)
Theorem outgoing_request_parameters lib opts env0 tr0 data env tr :
  let r := construct lib opts env0 tr0 in
  let T := clock env (reads tr) in
  truthy (url r) = true ->
  exists o evs,
    request r data env tr = (Some o, evs ++ tr)
    /\ (1 <= sent evs)%nat
    /\ stamped evs
    /\ forall c, EvSend c ∈ evs ->
         match secret r with
         | Some key =>
             if String.eqb key "" then
               param "timestamp" c = None /\ param "sign" c = None
             else
               param "timestamp" c = Some (JNum T)
               /\ param "sign" c = Some (JStr (Signer_sign_spec key T))
         | None => param "timestamp" c = None /\ param "sign" c = None
         end.
Proof.
  intros r T Hurl.
  destruct (request_params lib r data env tr (construct_instance lib opts env0 tr0) Hurl)
    as (o & evs & Hrun & Hst & Hsent & Hall).
  exists o, evs. split; [exact Hrun|]. split; [lia|]. split; [exact Hst|].
  intros c Hc. destruct (Hall c Hc) as (_ & _ & _ & Ht & Hs).
  fold T in Ht, Hs. unfold truthy in Ht, Hs.
  destruct (secret r) as [key|]; [|split; assumption].
  cbn [default] in Hs. destruct (String.eqb key ""); split; assumption.
Qed.

Lemma outgoing_request_parameters_witness :
  exists o evs,
    request (construct allow_all opts_token (env_of (flaky_adapter 2)) [])
            (text_payload (inl "hello"%string)) (env_of (flaky_adapter 2)) []
    = (Some o, evs ++ [])
    /\ (1 <= sent evs)%nat
    /\ stamped evs
    /\ forall c, EvSend c ∈ evs ->
         param "timestamp" c = Some (JNum 1700000000000)
         /\ param "sign" c
            = Some (JStr (Signer_sign_spec "SEC" 1700000000000)).
Proof.
  apply (outgoing_request_parameters allow_all opts_token
           (env_of (flaky_adapter 2)) [] (text_payload (inl "hello"%string))
           (env_of (flaky_adapter 2)) []).
  reflexivity.
Defined.

(** C6 as stated fails for the empty-string secret: the request goes
    out with [_] but without [timestamp] and without [sign]. *)
Lemma empty_secret_is_unsigned :
  secret (construct allow_all opts_empty_secret (env_of rejecting_adapter) [])
  = Some ""%string
  /\ map (fun c => (param "_" c, param "timestamp" c, param "sign" c))
         (sends (snd (request
                        (construct allow_all opts_empty_secret
                                   (env_of rejecting_adapter) [])
                        (text_payload (inl "hello"%string))
                        (env_of rejecting_adapter) [])))
     = [(Some (JNum 1700000000001), None, None)].
Proof. split; [reflexivity | vm_compute; reflexivity]. Qed.

(** C2.  For every secret and timestamp the signature the code computes
    is the percent-encoding of the base64 text of the HMAC-SHA256 digest,
    keyed by the secret, of ["<timestamp>\n<secret>"], and it is
    URL-safe: letters, digits and percent escapes only.  Whenever a
    request carries [sign], it is that text for the robot's secret and
    the [timestamp] sent with it; two runs with equal secret and
    timestamp send equal signatures. *)
Theorem signature_is_encoded_hmac_sha256
    lib opts env0 tr0 data env tr opts' env0' tr0' data' env' tr' :
  let r := construct lib opts env0 tr0 in
  let r' := construct lib opts' env0' tr0' in
  let T := clock env (reads tr) in
  let T' := clock env' (reads tr') in
  (forall key t,
     sign key t = Signer_sign_spec key t
     /\ url_safe (sign key t) = true
     /\ Forall (fun x => alnum_or_percent x = true)
               (String.list_ascii_of_string (sign key t)))
  /\ (truthy (url r) = true -> truthy (url r') = true ->
      exists o evs o' evs',
        request r data env tr = (Some o, evs ++ tr)
        /\ request r' data' env' tr' = (Some o', evs' ++ tr')
        /\ (forall c v, EvSend c ∈ evs -> param "sign" c = Some v ->
              exists key,
                secret r = Some key
                /\ param "timestamp" c = Some (JNum T)
                /\ v = JStr (Signer_sign_spec key T))
        /\ (secret r = secret r' -> T = T' ->
            forall c c', EvSend c ∈ evs -> EvSend c' ∈ evs' ->
              param "sign" c = param "sign" c')).
Proof.
  intros r r' T T'. split.
  - intros key t. split; [apply sign_unfold|]. rewrite sign_unfold.
    split; [apply encodeURIComponent_url_safe | apply encoded_base64_alnum].
  - intros Hurl Hurl'.
    destruct (request_params lib r data env tr
                (construct_instance lib opts env0 tr0) Hurl)
      as (o & evs & Hrun & _ & _ & Hall).
    destruct (request_params lib r' data' env' tr'
                (construct_instance lib opts' env0' tr0') Hurl')
      as (o' & evs' & Hrun' & _ & _ & Hall').
    exists o, evs, o', evs'. split; [exact Hrun|]. split; [exact Hrun'|]. split.
    + intros c v Hc Hv. destruct (Hall c Hc) as (_ & _ & _ & Ht & Hs).
      fold T in Ht, Hs. rewrite Hs in Hv. unfold truthy in Ht, Hv.
      destruct (secret r) as [key|]; [|discriminate].
      destruct (String.eqb key ""); [discriminate|].
      cbn [negb default] in Hv. injection Hv as <-.
      exists key. split; [reflexivity|]. split; [exact Ht | reflexivity].
    + intros Hsec HT c c' Hc Hc'.
      destruct (Hall c Hc) as (_ & _ & _ & _ & Hs).
      destruct (Hall' c' Hc') as (_ & _ & _ & _ & Hs').
      fold T in Hs. fold T' in Hs'. rewrite Hs, Hs', Hsec, HT. reflexivity.
Qed.

Lemma signature_is_encoded_hmac_sha256_witness :
  exists o evs o' evs',
    request (construct allow_all opts_token (env_of (flaky_adapter 2)) [])
            (text_payload (inl "hello"%string)) (env_of (flaky_adapter 2)) []
    = (Some o, evs ++ [])
    /\ request (construct allow_all opts_token (env_of rejecting_adapter) [])
               (link_payload sample_link)
               (env_of rejecting_adapter) []
       = (Some o', evs' ++ [])
    /\ (forall c v, EvSend c ∈ evs -> param "sign" c = Some v ->
          exists key,
            secret (construct allow_all opts_token (env_of (flaky_adapter 2)) [])
            = Some key
            /\ param "timestamp" c = Some (JNum 1700000000000)
            /\ v = JStr (Signer_sign_spec key 1700000000000))
    /\ (forall c c', EvSend c ∈ evs -> EvSend c' ∈ evs' ->
          param "sign" c = param "sign" c').
Proof.
  pose proof (signature_is_encoded_hmac_sha256 allow_all
                opts_token (env_of (flaky_adapter 2)) []
                (text_payload (inl "hello"%string)) (env_of (flaky_adapter 2)) []
                opts_token (env_of rejecting_adapter) []
                (link_payload sample_link)
                (env_of rejecting_adapter) []) as H.
  cbv zeta in H.
  destruct H as [_ H].
  destruct H as (o & evs & o' & evs' & H1 & H2 & H3 & H4);
    [reflexivity | reflexivity |].
  exists o, evs, o', evs'.
  split; [exact H1|]. split; [exact H2|]. split; [exact H3|].
  apply H4; reflexivity.
Defined.

(** ** The builders' payloads *)

Lemma stringify_undefined (v : JsVal) : JSON_stringify v = None <-> v = JUndefined.
Proof. destruct v; cbn; split; intros H; congruence. Qed.

(** The text of an object is made of one entry per serialized key, in
    order: the quoted key, a colon, the text of its value. *)
Lemma stringify_object_entries (fs : list (string * JsVal)) :
  exists texts,
    JSON_stringify (JObj fs) = Some ("{" +:+ join "," texts +:+ "}")
    /\ Forall2 (fun k t => exists v s,
                  In (k, v) fs /\ JSON_stringify v = Some s
                  /\ t = json_quote k +:+ ":" +:+ s)
               (serialized_keys (JObj fs)) texts.
Proof.
  exists (omap (fun kv => (fun s => json_quote (fst kv) +:+ ":" +:+ s)
                            <$> JSON_stringify (snd kv)) fs).
  split; [reflexivity|].
  cbn [serialized_keys].
  induction fs as [|[k v] fs IH]; [constructor|].
  assert (Hrest : Forall2 (fun k0 t => exists v0 s,
                    In (k0, v0) ((k, v) :: fs) /\ JSON_stringify v0 = Some s
                    /\ t = json_quote k0 +:+ ":" +:+ s)
            (omap (fun kv => match snd kv with
                             | JUndefined => None
                             | _ => Some (fst kv)
                             end) fs)
            (omap (fun kv => (fun s => json_quote (fst kv) +:+ ":" +:+ s)
                               <$> JSON_stringify (snd kv)) fs)).
  { eapply Forall2_impl; [exact IH|].
    intros k0 t (v0 & s & Hin & Hs & Ht). exists v0, s.
    split; [right; exact Hin | split; assumption]. }
  destruct (JSON_stringify v) as [s|] eqn:Hv.
  - assert (Hne : v <> JUndefined) by (intros ->; discriminate).
    cbn [omap list_omap fst snd]. rewrite Hv. cbn [fmap option_fmap option_map].
    destruct v; try contradiction; (constructor; [|exact Hrest]);
      eexists _, s; (split; [left; reflexivity | split; [exact Hv | reflexivity]]).
  - apply stringify_undefined in Hv. subst v. exact Hrest.
Qed.

(** C9.  The shorthand and the structured forms give the same request
    body, byte for byte: [text(c)] and [text({content: c})], and
    [markdown(t, b)] and [markdown({title: t, text: b})], for all
    strings, and so the two calls run alike on any robot. *)
Theorem shorthand_equals_structured (c t b : string) :
  JSON_stringify (text_payload (inl c))
  = JSON_stringify (text_payload (inr {| content := c; text_at := None |}))
  /\ JSON_stringify (markdown_payload (inl (t, b)))
     = JSON_stringify (markdown_payload
         (inr {| md_title := t; md_text := b; md_at := None |}))
  /\ JSON_stringify (text_payload (inl "hello"%string))
     = Some (js "{'msgtype':'text','text':{'content':'hello'}}")
  /\ JSON_stringify (markdown_payload (inl ("T", "B")%string))
     = Some (js "{'msgtype':'markdown','markdown':{'title':'T','text':'B'}}")
  /\ (forall r env tr,
        text r (inl c) env tr
        = text r (inr {| content := c; text_at := None |}) env tr
        /\ markdown r (inl (t, b)) env tr
           = markdown r (inr {| md_title := t; md_text := b; md_at := None |})
                      env tr).
Proof.
  split; [reflexivity|]. split; [reflexivity|].
  split; [vm_compute; reflexivity|]. split; [vm_compute; reflexivity|].
  intros r env tr. split; reflexivity.
Qed.

Lemma link_is_object v : conforms_ILinkReq v = true -> exists fs, v = JObj fs.
Proof. unfold conforms_ILinkReq. destruct v; cbn; try discriminate. eauto. Qed.

Lemma actionCard_is_object v :
  conforms_IActionCardReq v = true -> exists fs, v = JObj fs.
Proof. unfold conforms_IActionCardReq. destruct v; cbn; try discriminate. eauto. Qed.

Lemma feedCard_is_object v :
  conforms_IFeedCardReq v = true -> exists fs, v = JObj fs.
Proof. unfold conforms_IFeedCardReq. destruct v; cbn; try discriminate. eauto. Qed.

(** C10, as the code has it.  The envelope every builder sends has
    exactly the two keys [msgtype] and the key named by it.  When [text]
    or [markdown] is given mentions, they are forwarded as they are under
    the key [at] of the variant object, not of the envelope.  [link],
    [actionCard] and [feedCard] forward the caller's object unchanged as
    the variant and add no [at] of their own: the body has an [at] key
    exactly where the caller's object has one. *)
Theorem mentions_nested_in_variant :
  (forall (c : string) (at0 : JsVal),
     at0 <> JUndefined ->
     let p := text_payload (inr {| content := c; text_at := Some at0 |}) in
     serialized_keys p = ["msgtype"; "text"]%string
     /\ serialized_keys (js_prop "text" p) = ["content"; "at"]%string
     /\ js_prop "at" (js_prop "text" p) = at0)
  /\ (forall (t b : string) (at0 : JsVal),
        at0 <> JUndefined ->
        let p := markdown_payload
                   (inr {| md_title := t; md_text := b; md_at := Some at0 |}) in
        serialized_keys p = ["msgtype"; "markdown"]%string
        /\ serialized_keys (js_prop "markdown" p) = ["title"; "text"; "at"]%string
        /\ js_prop "at" (js_prop "markdown" p) = at0)
  /\ (forall arg, serialized_keys (text_payload arg) = ["msgtype"; "text"]%string)
  /\ (forall arg, serialized_keys (markdown_payload arg)
                  = ["msgtype"; "markdown"]%string)
  /\ (forall data,
        conforms_ILinkReq data = true ->
        serialized_keys (link_payload data) = ["msgtype"; "link"]%string
        /\ js_prop "link" (link_payload data) = data
        /\ mentions_key "at" (link_payload data) = mentions_key "at" data)
  /\ (forall data,
        conforms_IActionCardReq data = true ->
        serialized_keys (actionCard_payload data) = ["msgtype"; "actionCard"]%string
        /\ js_prop "actionCard" (actionCard_payload data) = data
        /\ mentions_key "at" (actionCard_payload data) = mentions_key "at" data)
  /\ (forall data,
        conforms_IFeedCardReq data = true ->
        serialized_keys (feedCard_payload data) = ["msgtype"; "feedCard"]%string
        /\ js_prop "feedCard" (feedCard_payload data) = data
        /\ mentions_key "at" (feedCard_payload data) = mentions_key "at" data).
Proof.
  split; [intros c at0 Hat; destruct at0; try contradiction;
          repeat split; reflexivity|].
  split; [intros t b at0 Hat; destruct at0; try contradiction;
          repeat split; reflexivity|].
  split; [intros [s|[c a]]; reflexivity|].
  split; [intros [[t b]|[t b a]]; reflexivity|].
  split; [intros data Hc; destruct (link_is_object data Hc) as [fs ->];
          split; [reflexivity|]; split; [reflexivity|];
          cbn [link_payload mentions_key existsb fst snd String.eqb Ascii.eqb
               Bool.eqb orb];
          apply orb_false_r|].
  split; [intros data Hc; destruct (actionCard_is_object data Hc) as [fs ->];
          split; [reflexivity|]; split; [reflexivity|];
          cbn [actionCard_payload mentions_key existsb fst snd String.eqb
               Ascii.eqb Bool.eqb orb];
          apply orb_false_r|].
  intros data Hc; destruct (feedCard_is_object data Hc) as [fs ->].
  split; [reflexivity|]. split; [reflexivity|].
  cbn [feedCard_payload mentions_key existsb fst snd String.eqb Ascii.eqb
       Bool.eqb orb].
  apply orb_false_r.
Qed.

Lemma mentions_nested_in_variant_witness :
  serialized_keys
    (js_prop "text"
       (text_payload (inr {| content := "hi"; text_at := Some sample_mentions |})))
  = ["content"; "at"]%string
  /\ js_prop "link" (link_payload sample_link) = sample_link
  /\ mentions_key "at" (link_payload sample_link) = false
  /\ mentions_key "at" (actionCard_payload sample_actionCard) = false
  /\ mentions_key "at" (feedCard_payload sample_feedCard) = false.
Proof.
  destruct mentions_nested_in_variant as (Ht & _ & _ & _ & Hl & Ha & Hf).
  split.
  { apply (Ht "hi"%string sample_mentions). discriminate. }
  destruct (Hl sample_link eq_refl) as (_ & Hv & Hk).
  destruct (Ha sample_actionCard eq_refl) as (_ & _ & Hka).
  destruct (Hf sample_feedCard eq_refl) as (_ & _ & Hkf).
  split; [exact Hv|]. rewrite Hk, Hka, Hkf. repeat split; reflexivity.
Defined.

(** C10 as stated fails for [link]: an object that conforms to
    [ILinkReq] and also has an [at] property is sent as it is, and the
    body contains [at]. *)
Lemma forwarded_link_keeps_at :
  conforms_ILinkReq link_with_at = true
  /\ mentions_key "at" (link_payload link_with_at) = true
  /\ serialized_keys (js_prop "link" (link_payload link_with_at))
     = ["text"; "title"; "messageUrl"; "at"]%string
  /\ JSON_stringify (link_payload link_with_at)
     = Some (js "{'msgtype':'link','link':{'text':'t','title':'T','messageUrl':'http://localhost/','at':{'isAtAll':true}}}").
Proof. vm_compute. repeat split; reflexivity. Qed.

(** ** [request] always settles *)

Lemma request_settles lib opts env0 tr0 data env tr :
  exists o tr', request (construct lib opts env0 tr0) data env tr = (Some o, tr').
Proof.
  destruct (truthy (url (construct lib opts env0 tr0))) eqn:Hurl.
  - destruct (request_sends lib _ data env tr
                (construct_instance lib opts env0 tr0) Hurl)
      as (o & evs & Hrun & _).
    eauto.
  - rewrite request_disabled by exact Hurl. eauto.
Qed.

(** ** The retry loop in general *)

Lemma validateStatus_robot lib R :
  validateStatus (robot_instance lib R) = accepts_status.
Proof. reflexivity. Qed.

(** For a POST request, what [settle] and [retryCondition] make of an
    answer does not depend on the rest of the request. *)
Lemma transient_at lib c raw :
  cfg_method c = "post"%string ->
  match settle accepts_status c raw with
  | inl _ => transient lib raw = false
  | inr err => retryCondition lib err = transient lib raw
  end.
Proof.
  intros Hm. unfold transient. destruct raw as [s b|code msg]; unfold settle.
  - destruct (accepts_status s); [reflexivity|].
    change (retryCondition lib (status_error c s b)
            = retryCondition lib (status_error post_probe s b)).
    rewrite !retryCondition_status_error. reflexivity.
  - unfold retryCondition, isNetworkOrIdempotentRequestError, isNetworkError,
      isIdempotentRequestError, isRetryableError, code_is.
    cbn [err_response err_code err_message err_config].
    rewrite Hm. reflexivity.
Qed.

Lemma dispatch_run lib R env :
  forall (m : nat) (raws : nat -> AdapterResult) (fuel : nat) st cfg tr,
    toLowerCase (cfg_method cfg) = "post"%string ->
    (m <= fuel)%nat ->
    Z.of_nat m <= Z.max 0 (R - retryCount st) ->
    (forall k c, (k <= m)%nat -> adapter env (sent tr + k)%nat c = raws k) ->
    (forall k, (k < m)%nat -> transient lib (raws k) = true) ->
    (transient lib (raws m) = false \/ R - retryCount st <= Z.of_nat m) ->
    exists evs c,
      axios_dispatch fuel (robot_instance lib R) st cfg env tr
      = (Some (settle accepts_status c (raws m)), evs ++ tr)
      /\ sent evs = S m
      /\ timeline evs = Attempt (cfg_timeout cfg) :: retry_rounds m (cfg_timeout cfg)
      /\ cfg_method c = "post"%string
      /\ derived_from cfg c.
Proof.
  induction m as [|m IH]; intros raws fuel st cfg tr Hpost Hfuel Hbudget Hraw Htrans Hlast;
    rewrite dispatch_step; cbv zeta; rewrite validateStatus_robot;
    set (c1 := with_params _ _);
    assert (Hc1 : cfg_method c1 = "post"%string) by exact Hpost;
    pose proof (Hraw 0%nat c1 ltac:(lia)) as H0;
    replace (sent tr + 0)%nat with (sent tr) in H0 by lia;
    rewrite H0;
    pose proof (transient_at lib c1 (raws 0%nat) Hc1) as Hcls;
    destruct (settle accepts_status c1 (raws 0%nat)) as [resp|err] eqn:Hs.
  - exists [EvSend c1; EvNow (clock env (S (reads tr))); EvNow (clock env (reads tr))], c1.
    rewrite Hs. split; [reflexivity|]. split; [reflexivity|]. split; [reflexivity|].
    split; [exact Hc1 | apply stamp_derived].
  - replace ((retryCount st <? R) && retryCondition lib err) with false.
    + exists [EvSend c1; EvNow (clock env (S (reads tr))); EvNow (clock env (reads tr))], c1.
      rewrite Hs. split; [reflexivity|]. split; [reflexivity|]. split; [reflexivity|].
      split; [exact Hc1 | apply stamp_derived].
    + symmetry. apply andb_false_iff. destruct Hlast as [Hl|Hl].
      * right. rewrite Hcls. exact Hl.
      * left. apply Z.ltb_ge. lia.
  - rewrite (Htrans 0%nat ltac:(lia)) in Hcls. discriminate.
  - rewrite (Htrans 0%nat ltac:(lia)) in Hcls. rewrite Hcls.
    replace (retryCount st <? R) with true by (symmetry; apply Z.ltb_lt; lia).
    cbn [andb]. destruct fuel as [|fuel]; [lia|].
    match goal with
    | |- context [axios_dispatch fuel _ ?st' c1 env ?tr1] =>
        destruct (IH (fun k => raws (S k)) fuel st' c1 tr1)
          as (evs & c & Hrun & Hsent & Htl & Hmc & Hder)
    end.
    + rewrite Hc1. reflexivity.
    + lia.
    + cbn [retryCount]. lia.
    + intros k c Hk. cbn [sent].
      replace (S (sent tr) + k)%nat with (sent tr + S k)%nat by lia.
      apply Hraw. lia.
    + intros k Hk. apply Htrans. lia.
    + cbn [retryCount]. destruct Hlast as [Hl|Hl]; [left; exact Hl | right; lia].
    + rewrite Hrun.
      exists (evs ++ [EvSleep 1000; EvSend c1;
                       EvNow (clock env (S (reads tr)));
                       EvNow (clock env (reads tr))]), c.
      split; [rewrite <- app_assoc; reflexivity|].
      split; [rewrite sent_app, Hsent; cbn [sent]; lia|].
      split; [rewrite timeline_app, Htl; reflexivity|].
      split; [exact Hmc|].
      apply (derived_from_trans cfg c1 c); [apply stamp_derived | exact Hder].
Qed.

Lemma request_run lib r data env tr raws (m : nat) :
  axiosInstance r = robot_instance lib (retries r) ->
  truthy (url r) = true ->
  (m <= Z.to_nat (retries r))%nat ->
  (forall k c, (k <= m)%nat -> adapter env (sent tr + k)%nat c = raws k) ->
  (forall k, (k < m)%nat -> transient lib (raws k) = true) ->
  (transient lib (raws m) = false \/ m = Z.to_nat (retries r)) ->
  exists evs c,
    request r data env tr = (Some (final_outcome c (raws m)), evs ++ tr)
    /\ sent evs = S m
    /\ timeline evs = Attempt (timeout r) :: retry_rounds m (timeout r)
    /\ cfg_method c = "post"%string
    /\ derived_from (request_config r data (clock env (reads tr))) c.
Proof.
  intros Hinst Hurl Hm Hraw Htrans Hlast.
  rewrite request_enabled by exact Hurl. cbv zeta.
  unfold axios_request. rewrite Hinst.
  cbn [retry_config robot_instance ar_retries]. rewrite secret_read_app.
  destruct (secret_read_facts r (clock env (reads tr))) as (_ & F2 & F3 & _).
  match goal with
  | |- context [axios_dispatch ?fuel _ ?st ?cfg env ?tr1] =>
      destruct (dispatch_run lib (retries r) env m raws fuel st cfg tr1)
        as (evs & c & Hrun & Hsent & Htl & Hmc & Hder)
  end.
  - reflexivity.
  - exact Hm.
  - cbn [retryCount]. lia.
  - intros k c Hk. rewrite sent_app, F2. cbn [Nat.add]. apply Hraw, Hk.
  - exact Htrans.
  - cbn [retryCount]. destruct Hlast as [Hl|Hl]; [left; exact Hl | right; lia].
  - rewrite Hrun. exists (evs ++ secret_read r (clock env (reads tr))), c.
    split.
    { rewrite <- app_assoc. unfold final_outcome.
      destruct (settle accepts_status c (raws m)); reflexivity. }
    split; [rewrite sent_app, Hsent, F2; lia|].
    split; [rewrite timeline_app, F3, Htl; reflexivity|].
    split; [exact Hmc | exact Hder].
Qed.

(** ** Further properties of the dispatch pipeline *)



(** X2 (retry loop).  When every exchange of a call, up to the budget,
    ends in a failure the retry condition accepts, [request] rejects with
    the error of the last one after exactly [max(retries, 0) + 1]
    exchanges. *)
Theorem retries_exhausted lib opts env0 tr0 data env tr raws :
  let r := construct lib opts env0 tr0 in
  let n := Z.to_nat (retries r) in
  truthy (url r) = true ->
  (forall k c, (k <= n)%nat -> adapter env (sent tr + k)%nat c = raws k) ->
  (forall k, (k <= n)%nat -> transient lib (raws k) = true) ->
  exists evs c err,
    request r data env tr = (Some (Rejects (AxiosErr err)), evs ++ tr)
    /\ settle accepts_status c (raws n) = inr err
    /\ sent evs = S n
    /\ timeline evs = Attempt (timeout r) :: retry_rounds n (timeout r).
Proof.
  intros r n Hurl Hraw Htrans.
  destruct (request_run lib r data env tr raws n
              (construct_instance lib opts env0 tr0) Hurl (Nat.le_refl n) Hraw)
    as (evs & c & Hrun & Hsent & Htl & Hmc & _).
  - intros k Hk. apply Htrans. lia.
  - right. reflexivity.
  - pose proof (transient_at lib c (raws n) Hmc) as Hcls.
    unfold final_outcome in Hrun.
    destruct (settle accepts_status c (raws n)) as [resp|err] eqn:Hs.
    + rewrite (Htrans n (Nat.le_refl n)) in Hcls. discriminate.
    + exists evs, c, err. repeat split; assumption.
Qed.

Lemma retries_exhausted_witness :
  exists evs c err,
    request (construct allow_all opts_token (env_of always_500) [])
            (text_payload (inl "hello"%string)) (env_of always_500) []
    = (Some (Rejects (AxiosErr err)), evs ++ [])
    /\ settle accepts_status c (HttpResponse 500 (JStr "Internal Server Error"))
       = inr err
    /\ sent evs = 3%nat
    /\ timeline evs
       = [Attempt 500; Wait 1000; Attempt 500; Wait 1000; Attempt 500].
Proof.
  apply (retries_exhausted allow_all opts_token (env_of always_500) []
           (text_payload (inl "hello"%string)) (env_of always_500) []
           (fun _ => HttpResponse 500 (JStr "Internal Server Error"))).
  - reflexivity.
  - intros k c Hk. reflexivity.
  - intros k Hk. reflexivity.
Defined.

(** X3 (retry condition).  For a POST request the retry condition comes
    down to this: a refused status is retried exactly when it is 500 or
    more; a failure without a response is retried when its code is
    [ETIMEDOUT]; when its code is [ECONNABORTED], exactly if its message
    contains ["timeout"]; for any other non-empty code, exactly if the
    [is-retry-allowed] table allows it; and never without a code. *)
Theorem retry_condition_on_post lib c :
  cfg_method c = "post"%string ->
  (forall s b, retryCondition lib (status_error c s b) = (500 <=? s))
  /\ (forall code msg,
        retryCondition lib (network_error c code msg)
        = match code with
          | None => false
          | Some k =>
              if String.eqb k "ECONNABORTED" then includes "timeout" msg
              else if String.eqb k "ETIMEDOUT" then true
              else negb (String.eqb k "") && lib (Some k)
          end).
Proof.
  intros Hm. split; [intros s b; apply retryCondition_status_error|].
  intros code msg.
  unfold retryCondition, isNetworkOrIdempotentRequestError, isNetworkError,
    isIdempotentRequestError, isRetryableError, code_is, network_error, truthy.
  cbn [err_response err_code err_message err_config]. rewrite Hm.
  destruct code as [k|]; [|reflexivity].
  destruct (String.eqb_spec k "ECONNABORTED") as [->|Hab].
  - cbn. destruct (includes "timeout" msg); reflexivity.
  - destruct (String.eqb_spec k "ETIMEDOUT") as [->|Hto].
    + cbn. destruct (lib _); reflexivity.
    + cbn [negb andb orb]. rewrite andb_true_r.
      replace (bool_decide ("post"%string ∈ IDEMPOTENT_HTTP_METHODS)) with false
        by reflexivity.
      rewrite orb_false_r.
      destruct (negb (String.eqb k "") && lib (Some k)); reflexivity.
Qed.

Lemma retry_condition_on_post_witness :
  retryCondition allow_all (status_error post_probe 503 JNull) = true
  /\ retryCondition allow_all (status_error post_probe 404 JNull) = false
  /\ retryCondition (fun _ => false)
       (network_error post_probe (Some "ETIMEDOUT"%string) "connect ETIMEDOUT") = true
  /\ retryCondition allow_all
       (network_error post_probe (Some "ECONNABORTED"%string) "Request aborted") = false
  /\ retryCondition allow_all (network_error post_probe None "Network Error") = false.
Proof.
  destruct (retry_condition_on_post allow_all post_probe eq_refl) as [Hs Hn].
  destruct (retry_condition_on_post (fun _ => false) post_probe eq_refl) as [_ Hn'].
  rewrite !Hs, !Hn, Hn'. repeat split; reflexivity.
Defined.

(** X4 (constructor).  A negative [retries] is kept as the budget, and
    then no exchange is ever retried: every call of an enabled robot makes
    exactly one exchange, whatever the transport answers. *)
Theorem negative_budget_never_retries lib opts env0 tr0 n data env tr :
  let r := construct lib opts env0 tr0 in
  opts_retries opts = Some n ->
  n < 0 ->
  truthy (url r) = true ->
  retries r = n
  /\ exists o evs,
       request r data env tr = (Some o, evs ++ tr) /\ sent evs = 1%nat.
Proof.
  intros r Hn Hneg Hurl.
  assert (Hr : retries r = n).
  { unfold r. rewrite construct_fields. cbn [retries]. rewrite Hn.
    unfold num_or. destruct (Z.eqb_spec n 0); [lia | reflexivity]. }
  split; [exact Hr|].
  destruct (request_params lib r data env tr
              (construct_instance lib opts env0 tr0) Hurl)
    as (o & evs & Hrun & _ & Hsent & _).
  exists o, evs. split; [exact Hrun|].
  rewrite Hr in Hsent. lia.
Qed.

Lemma negative_budget_never_retries_witness :
  retries (construct allow_all opts_negative_retries (env_of always_500) []) = -1
  /\ exists o evs,
       request (construct allow_all opts_negative_retries (env_of always_500) [])
               (text_payload (inl "hello"%string)) (env_of always_500) []
       = (Some o, evs ++ [])
       /\ sent evs = 1%nat.
Proof.
  apply (negative_budget_never_retries allow_all opts_negative_retries
           (env_of always_500) [] (-1) (text_payload (inl "hello"%string))
           (env_of always_500) []).
  - reflexivity.
  - lia.
  - reflexivity.
Defined.

Lemma derived_url_truthy (token : string) :
  truthy (Some ("https://oapi.dingtalk.com/robot/send?access_token=" +:+ token)%string)
  = true.
Proof. reflexivity. Qed.

(** X5 (constructor and [request]).  The robot is disabled exactly when
    neither a non-empty [accessToken] nor a non-empty [url] is given.  The
    constructor's only effect is the warning, written exactly then; a
    disabled robot's calls all return at once without any effect, an
    enabled robot's calls all send at least one request. *)
Theorem constructor_warns_iff_disabled lib opts env0 tr0 :
  let r := construct lib opts env0 tr0 in
  (truthy (url r) = false
   <-> truthy (opts_accessToken opts) = false /\ truthy (opts_url opts) = false)
  /\ snd (Robot_constructor lib opts env0 tr0)
     = (if truthy (url r) then tr0 else url_warning :: tr0)
  /\ (truthy (url r) = false ->
      forall data env tr, request r data env tr = (Some ReturnsUndefined, tr))
  /\ (truthy (url r) = true ->
      forall data env tr,
        exists o evs,
          request r data env tr = (Some o, evs ++ tr) /\ (1 <= sent evs)%nat).
Proof.
  intros r.
  assert (Hurl : url r = if truthy (opts_accessToken opts)
                         then Some ("https://oapi.dingtalk.com/robot/send?access_token="
                                    +:+ default ""%string (opts_accessToken opts))
                         else opts_url opts).
  { unfold r. rewrite construct_fields. reflexivity. }
  split; [|split; [|split]].
  - rewrite Hurl. destruct (truthy (opts_accessToken opts)).
    + rewrite derived_url_truthy. split; [discriminate | intros [H _]; discriminate].
    + split; [intros H; split; [reflexivity | exact H] | intros [_ H]; exact H].
  - rewrite Hurl. unfold Robot_constructor, bind.
    destruct (truthy (opts_accessToken opts)).
    + rewrite derived_url_truthy. reflexivity.
    + destruct (truthy (opts_url opts)); reflexivity.
  - intros Hoff data env tr. apply request_disabled, Hoff.
  - intros Hon data env tr.
    destruct (request_params lib r data env tr
                (construct_instance lib opts env0 tr0) Hon)
      as (o & evs & Hrun & _ & Hsent & _).
    exists o, evs. split; [exact Hrun | lia].
Qed.

Lemma constructor_warns_iff_disabled_witness :
  snd (Robot_constructor allow_all opts_empty_url (env_of always_500) [])
  = [url_warning]
  /\ request (construct allow_all opts_empty_url (env_of always_500) [])
             (text_payload (inl "hello"%string)) (env_of always_500) []
     = (Some ReturnsUndefined, [])
  /\ snd (Robot_constructor allow_all opts_token (env_of always_500) []) = []
  /\ exists o evs,
       request (construct allow_all opts_token (env_of always_500) [])
               (text_payload (inl "hello"%string)) (env_of always_500) []
       = (Some o, evs ++ [])
       /\ (1 <= sent evs)%nat.
Proof.
  pose proof (constructor_warns_iff_disabled allow_all opts_empty_url
                (env_of always_500) []) as H.
  pose proof (constructor_warns_iff_disabled allow_all opts_token
                (env_of always_500) []) as H'.
  cbv zeta in H, H'.
  destruct H as (_ & Hw & Hoff & _). destruct H' as (_ & Hw' & _ & Hon).
  split; [exact Hw|]. split; [apply Hoff; reflexivity|].
  split; [exact Hw'|]. apply Hon. reflexivity.
Defined.

(** X6 (constructor).  Without a non-empty [accessToken], a non-empty
    [url] is the robot's URL, and every request of every call goes to it. *)
Theorem url_used_without_token lib opts env0 tr0 u :
  let r := construct lib opts env0 tr0 in
  truthy (opts_accessToken opts) = false ->
  opts_url opts = Some u ->
  u <> ""%string ->
  url r = Some u
  /\ forall data env tr,
       exists o evs,
         request r data env tr = (Some o, evs ++ tr)
         /\ (1 <= sent evs)%nat
         /\ forall c, EvSend c ∈ evs -> cfg_url c = u.
Proof.
  intros r Htok Hu Hne.
  assert (Hurl : url r = Some u).
  { unfold r. rewrite construct_fields. cbn [url]. rewrite Htok. exact Hu. }
  split; [exact Hurl|]. intros data env tr.
  destruct (request_params lib r data env tr) as (o & evs & Hrun & _ & Hsent & Hall).
  - apply construct_instance.
  - rewrite Hurl. apply truthy_nonempty, Hne.
  - exists o, evs. split; [exact Hrun|]. split; [lia|].
    intros c Hc. destruct (Hall c Hc) as (U & _). rewrite U, Hurl. reflexivity.
Qed.

Lemma url_used_without_token_witness :
  url (construct allow_all opts_empty_token (env_of always_500) [])
  = Some "http://localhost/hook"%string
  /\ exists o evs,
       request (construct allow_all opts_empty_token (env_of always_500) [])
               (text_payload (inl "hello"%string)) (env_of always_500) []
       = (Some o, evs ++ [])
       /\ (1 <= sent evs)%nat
       /\ forall c, EvSend c ∈ evs -> cfg_url c = "http://localhost/hook"%string.
Proof.
  destruct (url_used_without_token allow_all opts_empty_token
              (env_of always_500) [] "http://localhost/hook"%string)
    as [Hu Hall].
  - reflexivity.
  - reflexivity.
  - discriminate.
  - split; [exact Hu | apply Hall].
Defined.

Lemma check_envelope_resolves (resp : AxiosResponse) :
  check_envelope resp = Resolves
  <-> exists fs, resp_data resp = JObj fs /\ js_get "errcode" fs = JNum 0.
Proof.
  unfold check_envelope. split.
  - destruct (resp_data resp) as [| | | | | |fs]; cbn [js_get]; try discriminate.
    destruct (js_get "errcode" fs) as [| | |[| |]| | |] eqn:Hc; try discriminate.
    intros _. exists fs. split; [reflexivity | exact Hc].
  - intros (fs & -> & ->). reflexivity.
Qed.

(** X7 ([request], the [then] callback).  After an accepted response the
    call resolves exactly when the body is an object whose [errcode] is
    the number 0.  A [null] or missing body rejects with a TypeError, and
    an object without [errcode] rejects with an error naming the code
    ['undefined']. *)
Theorem accepted_response_outcome lib opts env0 tr0 data env tr s body :
  let r := construct lib opts env0 tr0 in
  truthy (url r) = true ->
  200 <= s < 300 ->
  (forall c, adapter env (sent tr) c = HttpResponse s body) ->
  exists o evs,
    request r data env tr = (Some o, evs ++ tr)
    /\ sent evs = 1%nat
    /\ (o = Resolves
        <-> exists fs, body = JObj fs /\ js_get "errcode" fs = JNum 0)
    /\ (body = JNull \/ body = JUndefined -> o = Rejects TypeError)
    /\ (forall fs, body = JObj fs -> js_get "errcode" fs = JUndefined ->
          o = Rejects (Error ("request dingtalk fail, errorcode 'undefined', errormsg '"
                              +:+ js_to_string (js_get "errmsg" fs) +:+ "'"))).
Proof.
  intros r Hurl Hs Hresp.
  destruct (request_accepted lib r data env tr s body
              (construct_instance lib opts env0 tr0) Hurl Hs Hresp)
    as (evs & Hrun & Hsent & _).
  eexists _, evs. split; [exact Hrun|]. split; [exact Hsent|].
  split; [apply (check_envelope_resolves {| resp_status := s; resp_data := body |})|].
  split.
  - intros [-> | ->]; reflexivity.
  - intros fs -> Hc. unfold check_envelope. cbn [resp_data]. rewrite Hc. reflexivity.
Qed.

Lemma accepted_response_outcome_witness :
  exists evs,
    request (construct allow_all opts_token (env_of null_body_adapter) [])
            (text_payload (inl "hello"%string)) (env_of null_body_adapter) []
    = (Some (Rejects TypeError), evs ++ [])
    /\ sent evs = 1%nat.
Proof.
  destruct (accepted_response_outcome allow_all opts_token
              (env_of null_body_adapter) [] (text_payload (inl "hello"%string))
              (env_of null_body_adapter) [] 200 JNull)
    as (o & evs & Hrun & Hsent & _ & Hnull & _).
  - reflexivity.
  - lia.
  - intros c. reflexivity.
  - exists evs. rewrite <- (Hnull (or_introl eq_refl)).
    split; [exact Hrun | exact Hsent].
Defined.

(** ** What every attempt carries *)

Lemma stamp_is_some cfg t :
  is_Some (param "_"
    (with_params (with_method cfg (toLowerCase (cfg_method cfg)))
       (<["_"%string := JNum t]> (default ∅ (cfg_params cfg))))).
Proof. rewrite stamp_param. eauto. Qed.

Lemma dispatch_posts lib R env :
  forall (fuel : nat) st cfg tr,
    toLowerCase (cfg_method cfg) = "post"%string ->
    R - retryCount st <= Z.of_nat fuel ->
    exists res evs,
      axios_dispatch fuel (robot_instance lib R) st cfg env tr
      = (Some res, evs ++ tr)
      /\ forall c, EvSend c ∈ evs ->
           cfg_method c = "post"%string /\ derived_from cfg c
           /\ is_Some (param "_" c).
Proof.
  induction fuel as [|fuel IH]; intros st cfg tr Hpost Hfuel;
    rewrite dispatch_step; cbv zeta;
    set (c1 := with_params _ _);
    (assert (Hone : forall res : AxiosResponse + AxiosError,
       exists res' evs,
         (Some res, EvSend c1 :: EvNow (clock env (S (reads tr)))
                      :: EvNow (clock env (reads tr)) :: tr)
         = (Some res', evs ++ tr)
         /\ forall c, EvSend c ∈ evs ->
              cfg_method c = "post"%string /\ derived_from cfg c
              /\ is_Some (param "_" c));
     [intros res; exists res; eexists [_; _; _];
      split; [reflexivity|];
      intros c Hc; apply list_elem_of_In in Hc;
      destruct Hc as [Hc|[Hc|[Hc|[]]]]; try discriminate;
      injection Hc as <-;
      split; [exact Hpost|]; split; [apply stamp_derived | apply stamp_is_some]|]).
  - destruct (settle _ _ _) as [resp|err]; [apply Hone|].
    destruct (retryCount st <? R) eqn:Hlt.
    + apply Z.ltb_lt in Hlt. lia.
    + cbn [andb]. apply Hone.
  - destruct (settle _ _ _) as [resp|err]; [apply Hone|].
    destruct ((retryCount st <? R) && retryCondition lib err); [|apply Hone].
    match goal with
    | |- context [axios_dispatch fuel _ ?st' c1 env ?tr1] =>
        destruct (IH st' c1 tr1) as (res & evs & Hrun & Hall)
    end.
    { change (cfg_method c1) with (toLowerCase (cfg_method cfg)).
      rewrite Hpost. reflexivity. }
    { cbn [retryCount]. lia. }
    rewrite Hrun.
    exists res, (evs ++ [EvSleep 1000; EvSend c1;
                          EvNow (clock env (S (reads tr)));
                          EvNow (clock env (reads tr))]).
    split; [rewrite <- app_assoc; reflexivity|].
    intros c Hc. apply elem_of_app in Hc as [Hc|Hc].
    + destruct (Hall c Hc) as (Hm & Hd & Hs).
      split; [exact Hm|]. split; [|exact Hs].
      apply (derived_from_trans cfg c1 c); [apply stamp_derived | exact Hd].
    + apply list_elem_of_In in Hc.
      destruct Hc as [Hc|[Hc|[Hc|[Hc|[]]]]]; try discriminate.
      injection Hc as <-.
      split; [exact Hpost|]. split; [apply stamp_derived | apply stamp_is_some].
Qed.

Lemma request_posts lib r data env tr :
  axiosInstance r = robot_instance lib (retries r) ->
  truthy (url r) = true ->
  exists o evs,
    request r data env tr = (Some o, evs ++ tr)
    /\ forall c, EvSend c ∈ evs ->
         cfg_method c = "post"%string
         /\ derived_from (request_config r data (clock env (reads tr))) c
         /\ is_Some (param "_" c).
Proof.
  intros Hinst Hurl. rewrite request_enabled by exact Hurl. cbv zeta.
  unfold axios_request. rewrite Hinst. cbn [retry_config robot_instance ar_retries].
  rewrite secret_read_app.
  destruct (secret_read_facts r (clock env (reads tr))) as (_ & _ & _ & F4).
  match goal with
  | |- context [axios_dispatch ?fuel _ ?st ?cfg env ?tr1] =>
      destruct (dispatch_posts lib (retries r) env fuel st cfg tr1)
        as (res & evs & Hrun & Hall)
  end.
  { reflexivity. }
  { cbn [retryCount]. lia. }
  rewrite Hrun.
  exists (match res with
          | inl resp => check_envelope resp
          | inr err => Rejects (AxiosErr err)
          end), (evs ++ secret_read r (clock env (reads tr))).
  split; [rewrite <- app_assoc; destruct res; reflexivity|].
  intros c Hc. apply elem_of_app in Hc as [Hc|Hc]; [apply Hall, Hc|].
  destruct (F4 c Hc).
Qed.

(** X8 ([request]).  Every exchange of a call, retries included, is the
    same POST: lower-cased method [post], the robot's URL and timeout, a
    header [Content-Type: application/json], and as body the JSON text of
    the payload. *)
Theorem every_attempt_is_the_same_post lib opts env0 tr0 data env tr :
  let r := construct lib opts env0 tr0 in
  truthy (url r) = true ->
  exists o evs,
    request r data env tr = (Some o, evs ++ tr)
    /\ forall c, EvSend c ∈ evs ->
         cfg_method c = "post"%string
         /\ Some (cfg_url c) = url r
         /\ cfg_timeout c = timeout r
         /\ ("Content-Type", "application/json")%string ∈ cfg_headers c
         /\ cfg_data c = JSON_stringify data.
Proof.
  intros r Hurl.
  destruct (request_posts lib r data env tr
              (construct_instance lib opts env0 tr0) Hurl)
    as (o & evs & Hrun & Hall).
  exists o, evs. split; [exact Hrun|].
  intros c Hc. destruct (Hall c Hc) as (Hm & (U & T & H & D & _) & _).
  split; [exact Hm|]. split.
  - rewrite U. cbn [request_config cfg_url].
    unfold truthy in Hurl. destruct (url r); [reflexivity | discriminate].
  - split; [exact T|]. split; [rewrite H; apply list_elem_of_here | exact D].
Qed.

Lemma every_attempt_is_the_same_post_witness :
  exists o evs,
    request (construct allow_all opts_token (env_of always_500) [])
            (text_payload (inl "hello"%string)) (env_of always_500) []
    = (Some o, evs ++ [])
    /\ forall c, EvSend c ∈ evs ->
         cfg_method c = "post"%string
         /\ Some (cfg_url c)
            = Some "https://oapi.dingtalk.com/robot/send?access_token=abc"%string
         /\ cfg_timeout c = 500
         /\ ("Content-Type", "application/json")%string ∈ cfg_headers c
         /\ cfg_data c
            = Some (js "{'msgtype':'text','text':{'content':'hello'}}").
Proof.
  apply (every_attempt_is_the_same_post allow_all opts_token (env_of always_500) []
           (text_payload (inl "hello"%string)) (env_of always_500) []).
  reflexivity.
Defined.

Lemma base_params_dom r T :
  dom (base_params r T)
  = (if truthy (secret r) then {["timestamp"%string; "sign"%string]} else ∅
     : gset string).
Proof.
  unfold base_params. destruct (truthy (secret r)).
  - rewrite dom_insert_L, dom_singleton_L. reflexivity.
  - apply dom_empty_L.
Qed.

(** X9 ([request] and the interceptor).  The query parameters of every
    request sent are exactly [_], [timestamp] and [sign] when a non-empty
    secret is configured, and exactly [_] otherwise: nothing else is
    ever put in the query. *)
Theorem query_parameter_names lib opts env0 tr0 data env tr :
  let r := construct lib opts env0 tr0 in
  truthy (url r) = true ->
  exists o evs,
    request r data env tr = (Some o, evs ++ tr)
    /\ forall c, EvSend c ∈ evs ->
         exists p,
           cfg_params c = Some p
           /\ dom p
              = (if truthy (secret r)
                 then {["_"%string; "timestamp"%string; "sign"%string]}
                 else {["_"%string]} : gset string).
Proof.
  intros r Hurl.
  destruct (request_posts lib r data env tr
              (construct_instance lib opts env0 tr0) Hurl)
    as (o & evs & Hrun & Hall).
  exists o, evs. split; [exact Hrun|].
  intros c Hc. destruct (Hall c Hc) as (_ & (_ & _ & _ & _ & P) & [v Hv]).
  unfold param in Hv, P. destruct (cfg_params c) as [p|]; [|discriminate].
  exists p. split; [reflexivity|].
  cbn [request_config cfg_params] in P.
  assert (Hdom : dom p = {["_"%string]} ∪ dom (base_params r (clock env (reads tr)))).
  { apply set_eq. intros k.
    rewrite elem_of_union, !elem_of_dom, elem_of_singleton.
    destruct (decide (k = "_"%string)) as [->|Hk].
    - split; [intros _; left; reflexivity | intros _; rewrite Hv; eauto].
    - rewrite (P k Hk). split; [intros H; right; exact H|].
      intros [H|H]; [contradiction | exact H]. }
  rewrite Hdom, base_params_dom.
  destruct (truthy (secret r)); set_solver.
Qed.

Lemma query_parameter_names_witness :
  exists o evs,
    request (construct allow_all opts_token (env_of always_500) [])
            (text_payload (inl "hello"%string)) (env_of always_500) []
    = (Some o, evs ++ [])
    /\ forall c, EvSend c ∈ evs ->
         exists p,
           cfg_params c = Some p
           /\ dom p = ({["_"%string; "timestamp"%string; "sign"%string]}
                       : gset string).
Proof.
  apply (query_parameter_names allow_all opts_token (env_of always_500) []
           (text_payload (inl "hello"%string)) (env_of always_500) []).
  reflexivity.
Defined.

(** ** Quoting and escaping lose nothing *)

Lemma unescape_escaped (c : ascii) (rest : list ascii) :
  json_unescape (json_escape_char c ++ rest) = cons c <$> json_unescape rest.
Proof. destruct c as [[] [] [] [] [] [] [] []]; reflexivity. Qed.

Lemma unescape_flat_map (l : list ascii) :
  json_unescape (flat_map json_escape_char l) = Some l.
Proof.
  induction l as [|c l IH]; [reflexivity|].
  cbn [flat_map]. rewrite unescape_escaped, IH. reflexivity.
Qed.

Lemma chars_append (s1 s2 : string) :
  String.list_ascii_of_string (s1 +:+ s2)
  = String.list_ascii_of_string s1 ++ String.list_ascii_of_string s2.
Proof.
  induction s1 as [|a s1 IH]; [reflexivity|].
  change (String.list_ascii_of_string (String a s1 +:+ s2))
    with (a :: String.list_ascii_of_string (s1 +:+ s2)).
  rewrite IH. reflexivity.
Qed.

Lemma json_unquote_quote (s : string) : json_unquote (json_quote s) = Some s.
Proof.
  unfold json_unquote, json_quote, string_of_chars.
  rewrite String.list_ascii_of_string_of_list_ascii.
  cbn [app]. rewrite rev_app_distr. cbn [rev app].
  replace (Ascii.eqb dquote dquote) with true by reflexivity. cbn [andb].
  rewrite rev_involutive, unescape_flat_map. cbn [fmap option_fmap option_map].
  rewrite String.string_of_list_ascii_of_string. reflexivity.
Qed.

Lemma text_body_chars (c : string) :
  String.list_ascii_of_string <$> JSON_stringify (text_payload (inl c))
  = Some (String.list_ascii_of_string (js "{'msgtype':'text','text':{'content':")
          ++ String.list_ascii_of_string (json_quote c)
          ++ String.list_ascii_of_string "}}").
Proof.
  cbn [text_payload JSON_stringify omap list_omap fst snd fmap option_fmap
       option_map join].
  rewrite !chars_append. f_equal.
  vm_compute (String.list_ascii_of_string (json_quote "msgtype")).
  vm_compute (String.list_ascii_of_string (json_quote "text")).
  vm_compute (String.list_ascii_of_string (json_quote "content")).
  vm_compute (String.list_ascii_of_string
                (js "{'msgtype':'text','text':{'content':")).
  cbn [String.list_ascii_of_string app].
  rewrite <- !app_assoc. reflexivity.
Qed.

(** X10 (the [text] builder and [JSON.stringify]).  Quoting a string and
    reading the literal back gives the string again, so the body of a
    [text] message determines its content: two shorthand calls with
    different contents never send the same body. *)
Theorem text_body_determines_content (c1 c2 : string) :
  json_unquote (json_quote c1) = Some c1
  /\ (JSON_stringify (text_payload (inl c1)) = JSON_stringify (text_payload (inl c2))
      -> c1 = c2).
Proof.
  split; [apply json_unquote_quote|].
  intros H. apply (f_equal (fmap String.list_ascii_of_string)) in H.
  rewrite !text_body_chars in H.
  remember (String.list_ascii_of_string
              (js "{'msgtype':'text','text':{'content':")) as prefix eqn:Hp.
  remember (String.list_ascii_of_string (json_quote c1)) as q1 eqn:Hq1.
  remember (String.list_ascii_of_string (json_quote c2)) as q2 eqn:Hq2.
  remember (String.list_ascii_of_string "}}") as suffix eqn:Hsuf.
  injection H as H. apply app_inv_head, app_inv_tail in H. subst q1 q2.
  apply (f_equal String.string_of_list_ascii) in H.
  rewrite !String.string_of_list_ascii_of_string in H.
  apply (f_equal json_unquote) in H.
  rewrite !json_unquote_quote in H. injection H as H. exact H.
Qed.

Lemma text_body_determines_content_witness :
  json_unquote (json_quote "say 'hi'"%string) = Some "say 'hi'"%string
  /\ "say 'hi'"%string = "say 'hi'"%string.
Proof.
  destruct (text_body_determines_content "say 'hi'" "say 'hi'") as [H1 H2].
  split; [exact H1 | apply H2; reflexivity].
Defined.

Lemma decode_escaped (c : ascii) (rest : list ascii) :
  percent_decode ((if uri_unreserved c then [c] else percent_escape c) ++ rest)
  = cons c <$> percent_decode rest.
Proof. destruct c as [[] [] [] [] [] [] [] []]; reflexivity. Qed.

(** X11 ([encodeURIComponent] in [request]).  Percent-decoding the
    encoded text gives the text again: the [sign] parameter decodes to the
    base64 text of the digest, byte for byte. *)
Theorem percent_decode_encode (s : string) (key : string) (t : Z) :
  percent_decode (String.list_ascii_of_string (encodeURIComponent s))
  = Some (String.list_ascii_of_string s)
  /\ percent_decode (String.list_ascii_of_string (sign key t))
     = Some (String.list_ascii_of_string
               (base64 (SHA256.hmac (utf8_bytes key)
                          (utf8_bytes (pretty t +:+ newline +:+ key))))).
Proof.
  assert (H : forall x, percent_decode
                (String.list_ascii_of_string (encodeURIComponent x))
              = Some (String.list_ascii_of_string x)).
  { intros x. unfold encodeURIComponent, string_of_chars.
    rewrite String.list_ascii_of_string_of_list_ascii.
    induction (String.list_ascii_of_string x) as [|c l IH]; [reflexivity|].
    cbn [flat_map]. rewrite decode_escaped, IH. reflexivity. }
  split; [apply H|]. rewrite sign_unfold. apply H.
Qed.

(** X12 (constructor).  A [timeout] of 0 counts as not given: the
    per-attempt timeout is 3000, and every request of every call carries
    it.  Any other supplied number, negative ones included, is kept. *)
Theorem zero_timeout_gives_default lib opts env0 tr0 :
  let r := construct lib opts env0 tr0 in
  (opts_timeout opts = Some 0 -> timeout r = 3000)
  /\ (forall t, opts_timeout opts = Some t -> t <> 0 -> timeout r = t)
  /\ (opts_timeout opts = Some 0 -> truthy (url r) = true ->
      forall data env tr,
        exists o evs,
          request r data env tr = (Some o, evs ++ tr)
          /\ (1 <= sent evs)%nat
          /\ forall c, EvSend c ∈ evs -> cfg_timeout c = 3000).
Proof.
  intros r.
  assert (H0 : opts_timeout opts = Some 0 -> timeout r = 3000).
  { intros H. unfold r. rewrite construct_fields. cbn [timeout]. rewrite H. reflexivity. }
  split; [exact H0|]. split.
  - intros t H Ht. unfold r. rewrite construct_fields. cbn [timeout]. rewrite H.
    unfold num_or. destruct (Z.eqb_spec t 0); [contradiction | reflexivity].
  - intros H Hurl data env tr.
    destruct (request_params lib r data env tr
                (construct_instance lib opts env0 tr0) Hurl)
      as (o & evs & Hrun & _ & Hsent & Hall).
    exists o, evs. split; [exact Hrun|]. split; [lia|].
    intros c Hc. destruct (Hall c Hc) as (_ & T & _). rewrite T. apply H0, H.
Qed.

Lemma zero_timeout_gives_default_witness :
  timeout (construct allow_all
             {| opts_url := Some "http://localhost/hook"%string;
                opts_accessToken := None; opts_secret := None;
                opts_timeout := Some 0; opts_retries := None |}
             (env_of always_500) []) = 3000
  /\ timeout (construct allow_all opts_token (env_of always_500) []) = 500.
Proof.
  pose proof (zero_timeout_gives_default allow_all
                {| opts_url := Some "http://localhost/hook"%string;
                   opts_accessToken := None; opts_secret := None;
                   opts_timeout := Some 0; opts_retries := None |}
                (env_of always_500) []) as H.
  pose proof (zero_timeout_gives_default allow_all opts_token
                (env_of always_500) []) as H'.
  cbv zeta in H, H'.
  destruct H as (H & _). destruct H' as (_ & H' & _).
  split; [apply H; reflexivity | apply H'; [reflexivity | discriminate]].
Defined.
